(** * SaucerSwap plugin: the HBAR-to-token swap tool and its helpers

    A shallow embedding of
      - tools/constants.ts          (the per-network tables and the two constants),
      - tools/utils.ts              (Mirror Node lookups, the association guard,
                                     the swap path resolver),
      - tools/swap-hbar-for-token   (the tool's [execute]),
    followed by the properties of the specification that concern them.

    Conventions of the embedding.
      - An asynchronous function is a computation [M A]: the list of external
        interactions it performs, in order, and its outcome, a value or a
        thrown JavaScript value.
      - Everything the plugin does not define itself (the HTTP service, the
        Hedera SDK, hedera-agent-kit, the clock, the built-in [Number]) is a
        field of the record [World]; every statement quantifies over it.
      - A JavaScript string is a [string]; one character stands for one
        UTF-16 code unit below 256.  JSON numbers are integers ([Z]), which is
        what the Mirror Node emits in the fields read here. *)

From Stdlib Require Import String Ascii List ZArith QArith Bool Lia.
From Stdlib Require Import DecimalString.
Import ListNotations.

Local Open Scope string_scope.
Local Open Scope Z_scope.

(* ------------------------------------------------------------------ *)
(** ** JavaScript values that cross the plugin's boundary              *)
(* ------------------------------------------------------------------ *)

(** A parsed JSON document ([response.json()]). *)
#[warnings="-register-all"]
Inductive json : Type :=
| JNull
| JBool (b : bool)
| JNum (n : Z)
| JStr (s : string)
| JArr (items : list json)
| JObj (members : list (string * json)).

(** A JavaScript value read from a JSON document: [None] is [undefined]. *)
Definition jsval : Type := option json.

(** What a [throw] carries: an [Error] instance (any subclass) with its
    [message], or some value that is not an [Error]. *)
Inductive thrown : Type :=
| ThrownError (message : string)
| ThrownOther.

(** The result of [Number(v)]. *)
Inductive JsNumber : Type :=
| NaN
| Finite (q : Q)
| PosInfinity
| NegInfinity.

Inductive outcome (A : Type) : Type :=
| Ok (a : A)
| Err (e : thrown).
Arguments Ok {A} a.
Arguments Err {A} e.

(** [ToBoolean] on a value read from JSON. *)
Definition truthy (v : jsval) : bool :=
  match v with
  | None => false
  | Some JNull => false
  | Some (JBool b) => b
  | Some (JNum n) => negb (n =? 0)
  | Some (JStr s) => negb (s =? "")%string
  | Some (JArr _) => true
  | Some (JObj _) => true
  end.

(** [v === s] for a string [s]. *)
Definition strict_eq_string (v : jsval) (s : string) : bool :=
  match v with
  | Some (JStr t) => (t =? s)%string
  | _ => false
  end.

(** [Array.isArray(v)]. *)
Definition isArray (v : jsval) : bool :=
  match v with
  | Some (JArr _) => true
  | _ => false
  end.

(** The member of an object under key [k]; as in [JSON.parse], the last of
    several members with one key is the one that stays. *)
Fixpoint member (k : string) (ms : list (string * json)) : jsval :=
  match ms with
  | [] => None
  | (k', v) :: rest =>
      match member k rest with
      | Some w => Some w
      | None => if (k' =? k)%string then Some v else None
      end
  end.

(** The message V8 gives to the [TypeError] of a property read on [null]. *)
Definition null_read_message (k : string) : string :=
  "Cannot read properties of null (reading '" ++ k ++ "')".

(** [v.k] for a parsed JSON value [v] and a key [k] that is none of the
    built-in properties of arrays and strings (every key read by the plugin
    is such a key): a [TypeError] on [null], the member on an object,
    [undefined] on anything else. *)
Definition get_prop (v : json) (k : string) : outcome jsval :=
  match v with
  | JNull => Err (ThrownError (null_read_message k))
  | JObj ms => Ok (member k ms)
  | _ => Ok None
  end.

(* ------------------------------------------------------------------ *)
(** ** Strings                                                         *)
(* ------------------------------------------------------------------ *)

(** White space and line terminators below code unit 256, as removed by
    [String.prototype.trim]. *)
Definition is_js_space (c : ascii) : bool :=
  let n := nat_of_ascii c in
  (Nat.eqb n 9 || Nat.eqb n 10 || Nat.eqb n 11 || Nat.eqb n 12
   || Nat.eqb n 13 || Nat.eqb n 32 || Nat.eqb n 160)%bool.

Fixpoint trim_start (s : string) : string :=
  match s with
  | EmptyString => EmptyString
  | String c rest => if is_js_space c then trim_start rest else s
  end.

(** Drops the trailing white space: a character stays when it is not a space
    or when something stays after it. *)
Fixpoint trim_end (s : string) : string :=
  match s with
  | EmptyString => EmptyString
  | String c rest =>
      match trim_end rest with
      | EmptyString => if is_js_space c then EmptyString else String c EmptyString
      | kept => String c kept
      end
  end.

Definition trim (s : string) : string := trim_end (trim_start s).

(** [s.slice(0, n)]. *)
Fixpoint slice0 (n : nat) (s : string) : string :=
  match n, s with
  | O, _ => EmptyString
  | _, EmptyString => EmptyString
  | S n', String c rest => String c (slice0 n' rest)
  end.

(** A number in a template literal: the integers print in decimal. *)
Definition show_Z (z : Z) : string := NilZero.string_of_int (Z.to_int z).

Definition hex_digit (n : nat) : ascii :=
  ascii_of_nat (if Nat.ltb n 10 then 48 + n else 55 + n)%nat.

Definition percent_byte (n : nat) : string :=
  String "%" (String (hex_digit (Nat.div n 16)) (String (hex_digit (Nat.modulo n 16)) EmptyString)).

(** The bytes a form serializer leaves as they are: ASCII letters and digits
    and [* - . _]. *)
Definition form_safe (n : nat) : bool :=
  ((Nat.leb 48 n && Nat.leb n 57) || (Nat.leb 65 n && Nat.leb n 90)
   || (Nat.leb 97 n && Nat.leb n 122)
   || Nat.eqb n 42 || Nat.eqb n 45 || Nat.eqb n 46 || Nat.eqb n 95)%bool.

(** The [application/x-www-form-urlencoded] serialization of one name or
    value, as [URLSearchParams.toString] applies it: a space becomes [+], a
    code unit from 128 on is percent-encoded through its two UTF-8 bytes. *)
Fixpoint form_encode (s : string) : string :=
  match s with
  | EmptyString => EmptyString
  | String c rest =>
      let n := nat_of_ascii c in
      (if form_safe n then String c EmptyString
       else if Nat.eqb n 32 then "+"
       else if Nat.ltb n 128 then percent_byte n
       else percent_byte (192 + Nat.div n 64) ++ percent_byte (128 + Nat.modulo n 64))
      ++ form_encode rest
  end.

(* ------------------------------------------------------------------ *)
(** ** SDK and agent-kit data                                          *)
(* ------------------------------------------------------------------ *)

(** [LedgerId]: the SDK's predefined networks.  The tables below are
    JavaScript [Map]s keyed by these objects. *)
Inductive LedgerId : Type := MAINNET | TESTNET | PREVIEWNET | LOCAL_NODE.

Definition LedgerId_eqb (a b : LedgerId) : bool :=
  match a, b with
  | MAINNET, MAINNET | TESTNET, TESTNET
  | PREVIEWNET, PREVIEWNET | LOCAL_NODE, LOCAL_NODE => true
  | _, _ => false
  end.

(** [AgentMode] of hedera-agent-kit. *)
Inductive AgentMode : Type := AUTONOMOUS | RETURN_BYTES.

Record Client : Type := { ledgerId : option LedgerId }.

Record Context : Type := {
  mode : option AgentMode;
  context_accountId : option string
}.

(** The validated input of the tool ([swapHbarForTokenSchema]). *)
Record SwapHbarForTokenParams : Type := {
  hbarAmount : Q;
  tokenId : string;
  recipientAccountId : option string
}.

(** One argument pushed on a [ContractFunctionParameters]. *)
Inductive AbiParam : Type :=
| Uint256 (n : Z)
| AddressArray (addresses : list string)
| Address (address : string).

(** A transaction as the plugin configures it through the SDK's setters. *)
Inductive Transaction : Type :=
| TokenAssociateTransaction
    (accountId : string) (tokenIds : list string) (transactionMemo : string)
| ContractExecuteTransaction
    (contractId : string) (gas : Z) (payableAmount : Q)
    (functionName : string) (functionParams : list AbiParam).

Record RawTransactionResponse : Type := {
  status : string;
  transactionId : string
}.

(** What [handleTransaction] resolves to: an object with a [raw] member
    when the transaction was executed, the unsigned bytes otherwise. *)
Inductive HandlerResult : Type :=
| Executed (raw : RawTransactionResponse) (humanMessage : string)
| UnsignedBytes (bytes : list Z).

Record HttpResponse : Type := {
  http_status : Z;
  http_text : string;           (* response.text() *)
  http_json : outcome json      (* response.json(): throws on a body that is not JSON *)
}.

(** [response.ok]. *)
Definition http_ok (r : HttpResponse) : bool :=
  (200 <=? http_status r) && (http_status r <=? 299).

(** An external interaction, in the order the plugin performs them. *)
Inductive Event : Type :=
| HttpGet (url : string)
| SdkBuild (tx : Transaction)
| HandleTransaction (tx : Transaction)
| PopulateAccountEvmAddress (accountId : string)
| ConsoleError (message : string).

(** Everything outside the plugin. *)
Record World : Type := {
  (* fetch(url): the response, or the rejection of the request *)
  world_fetch : string -> outcome HttpResponse;
  (* the built-in Number(v) *)
  world_Number : jsval -> JsNumber;
  (* TokenId.fromString(s).toEvmAddress() *)
  world_TokenId_toEvmAddress : string -> outcome string;
  (* AccountResolver.resolveAccount(accountId, context, client) *)
  world_resolveAccount : option string -> Context -> Client -> outcome string;
  (* what AccountId.fromString(s) throws, if anything *)
  world_AccountId_rejects : string -> option thrown;
  (* (await accountId.populateAccountEvmAddress(client)).toEvmAddress(), a
     request to the network, for the account AccountId.fromString(s) *)
  world_populateAccountEvmAddress : string -> Client -> outcome string;
  (* what the SDK throws, if anything, while a transaction is configured *)
  world_sdk_rejects : Transaction -> option thrown;
  (* handleTransaction(tx, client, context, postProcess) *)
  world_handleTransaction :
    Transaction -> Client -> Context ->
    option (RawTransactionResponse -> string) -> outcome HandlerResult;
  (* Date.now(), in milliseconds *)
  world_Date_now : Z;
  (* of two requests that both fail, whether the first fails first *)
  world_first_fails_first : bool
}.

(* ------------------------------------------------------------------ *)
(** ** Computations                                                    *)
(* ------------------------------------------------------------------ *)

Definition M (A : Type) : Type := (list Event * outcome A)%type.

Definition ret {A} (a : A) : M A := ([], Ok a).
Definition throw {A} (e : thrown) : M A := ([], Err e).
Definition lift {A} (o : outcome A) : M A := ([], o).
Definition emit (ev : Event) : M unit := ([ev], Ok tt).

Definition bind {A B} (m : M A) (f : A -> M B) : M B :=
  match m with
  | (t, Ok a) => let '(t', r) := f a in ((t ++ t')%list, r)
  | (t, Err e) => (t, Err e)
  end.

Declare Scope comp_scope.
Delimit Scope comp_scope with comp.
Notation "x <- m ;; k" := (bind m (fun x => k))
  (at level 61, m at next level, right associativity) : comp_scope.
Notation "m ;;; k" := (bind m (fun _ => k))
  (at level 61, right associativity) : comp_scope.
Local Open Scope comp_scope.

(** [try { m } catch (e) { h e }]. *)
Definition try_catch {A} (m : M A) (h : thrown -> M A) : M A :=
  match m with
  | (t, Ok a) => (t, Ok a)
  | (t, Err e) => let '(t', r) := h e in ((t ++ t')%list, r)
  end.

(** [await Promise.all([m1, m2])] for two asynchronous calls that each stop
    at their first [await]: both are started, in order; the result is the
    pair of values, or the rejection of the one that failed (first). *)
Definition promise_all2 {A B} (first_fails_first : bool) (m1 : M A) (m2 : M B)
  : M (A * B) :=
  let '(t1, r1) := m1 in
  let '(t2, r2) := m2 in
  ((t1 ++ t2)%list,
   match r1, r2 with
   | Ok a, Ok b => Ok (a, b)
   | Err e, Ok _ => Err e
   | Ok _, Err e => Err e
   | Err e1, Err e2 => Err (if first_fails_first then e1 else e2)
   end).

Definition trace {A} (m : M A) : list Event := fst m.
Definition result {A} (m : M A) : outcome A := snd m.

(* ------------------------------------------------------------------ *)
(** ** tools/constants.ts                                              *)
(* ------------------------------------------------------------------ *)

Definition LedgerIdToRouterContractID : list (LedgerId * string) :=
  [ (TESTNET, "0.0.19264"); (MAINNET, "0.0.3045981") ].

Definition LedgerIdToWHbarID : list (LedgerId * string) :=
  [ (TESTNET, "0.0.15058"); (MAINNET, "0.0.1456986") ].

Definition DEFAULT_SWAP_GAS : Z := 400000.
Definition DEFAULT_DEADLINE_SECONDS : Z := 300.

Definition LedgerIdToBaseUrl : list (LedgerId * string) :=
  [ (MAINNET, "https://mainnet-public.mirrornode.hedera.com/api/v1");
    (TESTNET, "https://testnet.mirrornode.hedera.com/api/v1") ].

(** [map.get(key)]. *)
Fixpoint Map_get (m : list (LedgerId * string)) (key : LedgerId) : option string :=
  match m with
  | [] => None
  | (k, v) :: rest => if LedgerId_eqb k key then Some v else Map_get rest key
  end.

(** The string a test [if (!x)] lets through: defined and not empty. *)
Definition if_truthy (x : option string) : option string :=
  match x with
  | Some s => if (s =? "")%string then None else Some s
  | None => None
  end.

(* ------------------------------------------------------------------ *)
(** ** tools/utils.ts                                                  *)
(* ------------------------------------------------------------------ *)

(** [await fetch(url)]. *)
Definition do_fetch (w : World) (url : string) : M HttpResponse :=
  emit (HttpGet url) ;;; lift (world_fetch w url).

(** [(await response.text()).trim().slice(0, 200)], then the detail that is
    appended to the message when that text is not empty. *)
Definition errorBody (response : HttpResponse) : string :=
  slice0 200 (trim (http_text response)).

Definition errorDetails (response : HttpResponse) : string :=
  if (errorBody response =? "")%string then "" else " " ++ errorBody response.

Record TokenInfo : Type := {
  token_type : jsval;
  token_decimals : JsNumber
}.

Definition fetchTokenInfoFromMirrorNode (w : World) (baseUrl tokenId : string)
  : M TokenInfo :=
  response <- do_fetch w (baseUrl ++ "/tokens/" ++ tokenId) ;;
  if negb (http_ok response) then
    throw (ThrownError
             ("Mirror Node token lookup failed (" ++ show_Z (http_status response)
              ++ ")." ++ errorDetails response))
  else
    data <- lift (http_json response) ;;
    decimals <- lift (get_prop data "decimals") ;;
    if negb (truthy decimals) then
      throw (ThrownError "Mirror Node token info missing numeric decimals.")
    else
      type <- lift (get_prop data "type") ;;
      ret {| token_type := type; token_decimals := world_Number w decimals |}.

Definition requireClientLedger (client : Client) : outcome LedgerId :=
  match ledgerId client with
  | Some ledger => Ok ledger
  | None => Err (ThrownError "Unable to determine Hedera network from client.")
  end.

Definition fetchFromMirrorNode (w : World) (url : string) : M json :=
  response <- do_fetch w url ;;
  if negb (http_ok response) then
    throw (ThrownError
             ("Mirror Node request failed (" ++ show_Z (http_status response)
              ++ ")." ++ errorDetails response))
  else
    lift (http_json response).

(** [new URLSearchParams(entries).toString()]. *)
Fixpoint URLSearchParams_toString (entries : list (string * string)) : string :=
  match entries with
  | [] => ""
  | [(k, v)] => form_encode k ++ "=" ++ form_encode v
  | (k, v) :: rest =>
      form_encode k ++ "=" ++ form_encode v ++ "&" ++ URLSearchParams_toString rest
  end.

(** [relationships.some((entry) => entry.token_id === tokenId)]: the entries
    are tested from the left, up to the first that matches. *)
Fixpoint some_token_id (relationships : list json) (tokenId : string) : outcome bool :=
  match relationships with
  | [] => Ok false
  | entry :: rest =>
      match get_prop entry "token_id" with
      | Err e => Err e
      | Ok v => if strict_eq_string v tokenId then Ok true
                else some_token_id rest tokenId
      end
  end.

(** The elements of a value for which [Array.isArray] holds. *)
Definition array_items (v : jsval) : list json :=
  match v with
  | Some (JArr items) => items
  | _ => []
  end.

(** The list [mirrorNodeAccountHasToken] searches: [data.tokens] when it is
    an array, else [data.balances] when that is one, else the empty list. *)
Definition select_relationships (data : json) : outcome (list json) :=
  match get_prop data "tokens" with
  | Err e => Err e
  | Ok tokens =>
      if isArray tokens then Ok (array_items tokens)
      else
        match get_prop data "balances" with
        | Err e => Err e
        | Ok balances =>
            if isArray balances then Ok (array_items balances) else Ok []
        end
  end.

Definition mirrorNodeAccountHasToken (w : World) (baseUrl accountId tokenId : string)
  : M bool :=
  let params := URLSearchParams_toString [("token.id", tokenId); ("limit", "1")] in
  data <- fetchFromMirrorNode w
            (baseUrl ++ "/accounts/" ++ accountId ++ "/tokens?" ++ params) ;;
  relationships <- lift (select_relationships data) ;;
  lift (some_token_id relationships tokenId).

Definition mirrorNodeAccountMaxAutoAssociations (w : World) (baseUrl accountId : string)
  : M Z :=
  data <- fetchFromMirrorNode w (baseUrl ++ "/accounts/" ++ accountId) ;;
  value <- lift (get_prop data "max_automatic_token_associations") ;;
  ret (match value with
       | Some (JNum n) => n
       | _ => 0
       end).

(** The SDK calls that configure a transaction; a successful one is logged. *)
Definition build (w : World) (tx : Transaction) : M Transaction :=
  match world_sdk_rejects w tx with
  | Some e => throw e
  | None => emit (SdkBuild tx) ;;; ret tx
  end.

(** [await handleTransaction(tx, client, context, postProcess)]. *)
Definition handle (w : World) (tx : Transaction) (client : Client) (context : Context)
    (postProcess : option (RawTransactionResponse -> string)) : M HandlerResult :=
  emit (HandleTransaction tx) ;;;
  lift (world_handleTransaction w tx client context postProcess).

Definition is_RETURN_BYTES (m : option AgentMode) : bool :=
  match m with
  | Some RETURN_BYTES => true
  | _ => false
  end.

Definition association_required_message : string :=
  "Recipient account lacks token association. Please associate the token before requesting RETURN_BYTES.".

(** The [postProcess] callback given to [handleTransaction]. *)
Definition association_message (tokenId accountId : string)
  : RawTransactionResponse -> string :=
  fun response =>
    "Associated token " ++ tokenId ++ " with account " ++ accountId
    ++ ". Status: " ++ status response ++ ".".

Definition association_transaction (accountId tokenId : string) : Transaction :=
  TokenAssociateTransaction accountId [tokenId] "Auto-associate for SaucerSwap".

Definition ensureTokenAssociation (w : World) (client : Client) (context : Context)
    (accountId tokenId : string) : M unit :=
  ledger <- lift (requireClientLedger client) ;;
  match if_truthy (Map_get LedgerIdToBaseUrl ledger) with
  | None => throw (ThrownError "Unsupported Hedera network for Mirror Node lookup.")
  | Some mirrorNodeBaseUrl =>
      both <- promise_all2 (world_first_fails_first w)
                (mirrorNodeAccountHasToken w mirrorNodeBaseUrl accountId tokenId)
                (mirrorNodeAccountMaxAutoAssociations w mirrorNodeBaseUrl accountId) ;;
      let '(isAssociated, maxAutoAssociations) := both in
      let hasUnlimitedAutoAssociations := maxAutoAssociations =? -1 in
      if isAssociated || hasUnlimitedAutoAssociations then ret tt
      else if is_RETURN_BYTES (mode context) then
        throw (ThrownError association_required_message)
      else
        associateTx <- build w (association_transaction accountId tokenId) ;;
        associationResult <-
          handle w associateTx client context
            (Some (association_message tokenId accountId)) ;;
        match associationResult with
        | Executed raw _ =>
            if negb (status raw =? "SUCCESS")%string then
              throw (ThrownError ("Token association failed: " ++ status raw))
            else ret tt
        | UnsignedBytes _ =>
            throw (ThrownError "Unexpected RETURN_BYTES result while associating token.")
        end
  end.

Definition resolveSwapPath (w : World) (ledger : LedgerId) (tokenId : string)
  : M (list string) :=
  match if_truthy (Map_get LedgerIdToWHbarID ledger) with
  | None => throw (ThrownError "Unsupported Hedera network for WHBAR mapping.")
  | Some whbarId =>
      first <- lift (world_TokenId_toEvmAddress w whbarId) ;;
      second <- lift (world_TokenId_toEvmAddress w tokenId) ;;
      ret [first; second]
  end.

(* ------------------------------------------------------------------ *)
(** ** tools/swap-hbar-for-token.ts                                    *)
(* ------------------------------------------------------------------ *)

Definition SWAP_HBAR_FOR_TOKEN : string := "your-custom-plugin-swap_hbar_for_token".

(** What [execute] resolves to. *)
Inductive ToolResult : Type :=
| BareString (s : string)
| ErrorResult (raw_error : string) (humanMessage : string)
| HandlerOutput (r : HandlerResult).

(** The swap transaction of lines 90 to 100. *)
Definition swap_transaction (routerId : string) (hbarAmount : Q)
    (path : list string) (recipientAccountEvmAddress : string) (deadline : Z)
  : Transaction :=
  ContractExecuteTransaction routerId DEFAULT_SWAP_GAS hbarAmount
    "swapExactETHForTokens"
    [ Uint256 0; AddressArray path; Address recipientAccountEvmAddress;
      Uint256 deadline ].

(** Lines 84 to 88: the recipient's EVM address, asked from the network. *)
Definition populateAccountEvmAddress (w : World) (accountId : string) (client : Client)
  : M string :=
  match world_AccountId_rejects w accountId with
  | Some e => throw e
  | None =>
      emit (PopulateAccountEvmAddress accountId) ;;;
      lift (world_populateAccountEvmAddress w accountId client)
  end.

(** The body of the [try] block. *)
Definition execute_try (w : World) (client : Client) (context : Context)
    (params : SwapHbarForTokenParams) : M ToolResult :=
  ledger <- lift (requireClientLedger client) ;;
  match if_truthy (Map_get LedgerIdToRouterContractID ledger) with
  | None => ret (BareString "Unsupported Hedera network for SaucerSwap router.")
  | Some routerId =>
      match if_truthy (Map_get LedgerIdToBaseUrl ledger) with
      | None => throw (ThrownError "Unsupported Hedera network for Mirror Node lookup.")
      | Some mirrorNodeBaseUrl =>
          tokenInfo <- fetchTokenInfoFromMirrorNode w mirrorNodeBaseUrl (tokenId params) ;;
          if truthy (token_type tokenInfo)
             && negb (strict_eq_string (token_type tokenInfo) "FUNGIBLE_COMMON")
          then ret (BareString "This token is not a Fungible Token")
          else
            recipient <- lift (world_resolveAccount w (recipientAccountId params)
                                 context client) ;;
            ensureTokenAssociation w client context recipient (tokenId params) ;;;
            path <- resolveSwapPath w ledger (tokenId params) ;;
            let deadline := world_Date_now w / 1000 + DEFAULT_DEADLINE_SECONDS in
            recipientAccountEvmAddress <-
              populateAccountEvmAddress w recipient client ;;
            tx <- build w (swap_transaction routerId (hbarAmount params) path
                             recipientAccountEvmAddress deadline) ;;
            result <- handle w tx client context None ;;
            ret (HandlerOutput result)
      end
  end.

(** The [catch] block. *)
Definition execute_catch (error : thrown) : M ToolResult :=
  let message :=
    match error with
    | ThrownError m => m
    | ThrownOther => "Unexpected error during SaucerSwap swap."
    end in
  emit (ConsoleError message) ;;;
  ret (ErrorResult message message).

(** [swapHbarForTokenTool().execute(client, context, params)]. *)
Definition execute (w : World) (client : Client) (context : Context)
    (params : SwapHbarForTokenParams) : M ToolResult :=
  try_catch (execute_try w client context params) execute_catch.

(* ------------------------------------------------------------------ *)
(** ** Observations on a run                                           *)
(* ------------------------------------------------------------------ *)

(** The addresses the three lookups request. *)
Definition token_url (baseUrl tokenId : string) : string :=
  baseUrl ++ "/tokens/" ++ tokenId.

Definition relationship_url (baseUrl accountId tokenId : string) : string :=
  baseUrl ++ "/accounts/" ++ accountId ++ "/tokens?token.id="
  ++ form_encode tokenId ++ "&limit=1".

Definition account_url (baseUrl accountId : string) : string :=
  baseUrl ++ "/accounts/" ++ accountId.

(** The two requests of the association guard. *)
Definition guard_lookups (baseUrl accountId tokenId : string) : list Event :=
  [ HttpGet (relationship_url baseUrl accountId tokenId);
    HttpGet (account_url baseUrl accountId) ].

(** A transaction was configured or handed to [handleTransaction]. *)
Definition is_transaction_event (ev : Event) : bool :=
  match ev with
  | SdkBuild _ | HandleTransaction _ => true
  | _ => false
  end.

Definition no_transaction (t : list Event) : bool :=
  forallb (fun ev => negb (is_transaction_event ev)) t.

(** A request left the process: HTTP, the SDK's address lookup, or a
    transaction handed over for signing or submission. *)
Definition is_network_event (ev : Event) : bool :=
  match ev with
  | HttpGet _ | HandleTransaction _ | PopulateAccountEvmAddress _ => true
  | _ => false
  end.

Definition network_calls (t : list Event) : list Event :=
  filter is_network_event t.

(** Whether a swap (contract execution) was configured or handed over. *)
Definition is_swap_event (ev : Event) : bool :=
  match ev with
  | SdkBuild (ContractExecuteTransaction _ _ _ _ _)
  | HandleTransaction (ContractExecuteTransaction _ _ _ _ _) => true
  | _ => false
  end.

Definition no_swap (t : list Event) : bool :=
  forallb (fun ev => negb (is_swap_event ev)) t.

(** The message the [catch] block reports for a thrown value. *)
Definition reported_message (e : thrown) : string :=
  match e with
  | ThrownError m => m
  | ThrownOther => "Unexpected error during SaucerSwap swap."
  end.


(** An entry whose [token_id] is the string [tokenId]. *)
Definition entry_has_token (tokenId : string) (entry : json) : Prop :=
  get_prop entry "token_id" = Ok (Some (JStr tokenId)).


(* ------------------------------------------------------------------ *)
(** ** A concrete test network                                         *)
(* ------------------------------------------------------------------ *)

(** A world to run the definitions in: the test network, the token
    0.0.731861 and the account 0.0.1001.  The three bodies the Mirror Node
    answers with and the status of an association are left open. *)

Definition testnet_client : Client := {| ledgerId := Some TESTNET |}.
Definition previewnet_client : Client := {| ledgerId := Some PREVIEWNET |}.

Definition autonomous_context : Context :=
  {| mode := Some AUTONOMOUS; context_accountId := Some "0.0.1001" |}.
Definition return_bytes_context : Context :=
  {| mode := Some RETURN_BYTES; context_accountId := Some "0.0.1001" |}.

Definition sample_params : SwapHbarForTokenParams :=
  {| hbarAmount := 5 # 2; tokenId := "0.0.731861"; recipientAccountId := None |}.

Definition sample_base : string := "https://testnet.mirrornode.hedera.com/api/v1".

Definition response_200 (body : json) : HttpResponse :=
  {| http_status := 200; http_text := ""; http_json := Ok body |}.

Definition response_404 : HttpResponse :=
  {| http_status := 404;
     http_text := "  Not Found ";
     http_json := Err (ThrownError "Unexpected token 'N' in JSON at position 2") |}.

Definition sample_receipt (s : string) : RawTransactionResponse :=
  {| status := s; transactionId := "0.0.1001@1700000000.000000001" |}.

Definition sample_world (token_body tokens_body account_body : json)
    (association_status : string) : World :=
  {| world_fetch := fun url =>
       if (url =? sample_base ++ "/tokens/0.0.731861")%string
       then Ok (response_200 token_body)
       else if (url =? sample_base ++ "/accounts/0.0.1001/tokens?token.id=0.0.731861&limit=1")%string
       then Ok (response_200 tokens_body)
       else if (url =? sample_base ++ "/accounts/0.0.1001")%string
       then Ok (response_200 account_body)
       else Ok response_404;
     world_Number := fun v =>
       match v with
       | Some (JNum n) => Finite (inject_Z n)
       | _ => if strict_eq_string v "6" then Finite (inject_Z 6) else NaN
       end;
     world_TokenId_toEvmAddress := fun s =>
       if (s =? "0.0.15058")%string
       then Ok "0000000000000000000000000000000000003ad2"
       else if (s =? "0.0.731861")%string
       then Ok "00000000000000000000000000000000000b2ad5"
       else Err (ThrownError ("failed to parse entity id: " ++ s));
     world_resolveAccount := fun provided context _ =>
       match if_truthy provided with
       | Some a => Ok a
       | None =>
           match if_truthy (context_accountId context) with
           | Some a => Ok a
           | None => Err (ThrownError "Either context.accountId or client operator account must be set")
           end
       end;
     world_AccountId_rejects := fun _ => None;
     world_populateAccountEvmAddress := fun _ _ =>
       Ok "00000000000000000000000000000000000003e9";
     world_sdk_rejects := fun _ => None;
     world_handleTransaction := fun tx _ context postProcess =>
       if is_RETURN_BYTES (mode context) then Ok (UnsignedBytes [10; 2; 24; 1])
       else
         let raw :=
           match tx with
           | TokenAssociateTransaction _ _ _ => sample_receipt association_status
           | ContractExecuteTransaction _ _ _ _ _ => sample_receipt "SUCCESS"
           end in
         Ok (Executed raw
               match postProcess with
               | Some f => f raw
               | None => "{}"
               end);
     world_Date_now := 1700000000123;
     world_first_fails_first := true |}.

Definition fungible_body : json :=
  JObj [("type", JStr "FUNGIBLE_COMMON"); ("decimals", JStr "6")].

Definition associated_body : json :=
  JObj [("tokens", JArr [JObj [("token_id", JStr "0.0.731861")]])].

Definition not_associated_body : json := JObj [("tokens", JArr [])].

Definition account_body (max_auto : Z) : json :=
  JObj [("max_automatic_token_associations", JNum max_auto)].

(** The recipient holds the token already. *)
Definition world_associated : World :=
  sample_world fungible_body associated_body (account_body 0) "SUCCESS".

(** The recipient does not hold the token and has no automatic association
    left; an association, when submitted, ends in the given status. *)
Definition world_not_associated (association_status : string) : World :=
  sample_world fungible_body not_associated_body (account_body 0) association_status.

(** A token whose [decimals] is the string [abc]. *)
Definition non_numeric_decimals_body : json :=
  JObj [("type", JStr "FUNGIBLE_COMMON"); ("decimals", JStr "abc")].

Definition world_non_numeric_decimals : World :=
  sample_world non_numeric_decimals_body associated_body (account_body 0) "SUCCESS".


Definition sample_token_info : TokenInfo :=
  {| token_type := Some (JStr "FUNGIBLE_COMMON");
     token_decimals := Finite (inject_Z 6) |}.

Definition sample_lookups : list Event :=
  guard_lookups sample_base "0.0.1001" "0.0.731861".

Definition sample_swap : Transaction :=
  ContractExecuteTransaction "0.0.19264" 400000 (5 # 2) "swapExactETHForTokens"
    [ Uint256 0;
      AddressArray [ "0000000000000000000000000000000000003ad2";
                     "00000000000000000000000000000000000b2ad5" ];
      Address "00000000000000000000000000000000000003e9";
      Uint256 1700000300 ].

(** An account that holds no token but accepts every automatic association. *)
Definition world_unlimited : World :=
  sample_world fungible_body not_associated_body (account_body (-1)) "SUCCESS".

Definition sample_association : Transaction :=
  association_transaction "0.0.1001" "0.0.731861".

Definition non_fungible_body : json :=
  JObj [("type", JStr "NON_FUNGIBLE_UNIQUE"); ("decimals", JStr "6")].

Definition world_non_fungible : World :=
  sample_world non_fungible_body associated_body (account_body 0) "SUCCESS".

(** A descriptor whose declared type is the empty string. *)
Definition empty_type_body : json :=
  JObj [("type", JStr ""); ("decimals", JStr "6")].

Definition world_empty_type : World :=
  sample_world empty_type_body associated_body (account_body 0) "SUCCESS".

(* ------------------------------------------------------------------ *)
(** ** Further observations                                            *)
(* ------------------------------------------------------------------ *)

(** The transactions handed to [handleTransaction] during a run, in order. *)
Fixpoint handed (t : list Event) : list Transaction :=
  match t with
  | [] => []
  | HandleTransaction tx :: rest => tx :: handed rest
  | _ :: rest => handed rest
  end.

(** The messages written with [console.error] during a run, in order. *)
Fixpoint console_errors (t : list Event) : list string :=
  match t with
  | [] => []
  | ConsoleError m :: rest => m :: console_errors rest
  | _ :: rest => console_errors rest
  end.

(** Every character of a string passes a test. *)
Fixpoint string_forall (p : ascii -> bool) (s : string) : bool :=
  match s with
  | EmptyString => true
  | String c rest => p c && string_forall p rest
  end.

Definition form_safe_char (c : ascii) : bool := form_safe (nat_of_ascii c).

(** What can occur in a serialized name or value: a character left as it
    is, the [+] of a space, or the [%] of an escape. *)
Definition form_output_char (c : ascii) : bool :=
  form_safe_char c || Nat.eqb (nat_of_ascii c) 43 || Nat.eqb (nat_of_ascii c) 37.

(** What one character is serialized to. *)
Definition form_encode_char (c : ascii) : string :=
  let n := nat_of_ascii c in
  if form_safe n then String c EmptyString
  else if Nat.eqb n 32 then "+"
  else if Nat.ltb n 128 then percent_byte n
  else percent_byte (192 + Nat.div n 64) ++ percent_byte (128 + Nat.modulo n 64).

(** The message of a lookup through [fetchFromMirrorNode] that was answered
    with a status outside 200 to 299. *)
Definition request_failed_message (response : HttpResponse) : string :=
  "Mirror Node request failed (" ++ show_Z (http_status response) ++ ")."
  ++ errorDetails response.

(** The swap the tool configures on a network whose router is [routerId]. *)
Definition is_swap_of (w : World) (routerId : string) (params : SwapHbarForTokenParams)
    (tx : Transaction) : Prop :=
  exists first second recipientAccountEvmAddress,
    tx = ContractExecuteTransaction routerId 400000 (hbarAmount params)
           "swapExactETHForTokens"
           [ Uint256 0; AddressArray [first; second];
             Address recipientAccountEvmAddress;
             Uint256 (world_Date_now w / 1000 + 300) ].

(** An account that holds no token and whose ceiling is given as a string. *)
Definition world_string_ceiling : World :=
  sample_world fungible_body not_associated_body
    (JObj [("max_automatic_token_associations", JStr "-1")]) "SUCCESS".

(** A Mirror Node that answers 404 to every request. *)
Definition world_down : World :=
  {| world_fetch := fun _ => Ok response_404;
     world_Number := world_Number world_associated;
     world_TokenId_toEvmAddress := world_TokenId_toEvmAddress world_associated;
     world_resolveAccount := world_resolveAccount world_associated;
     world_AccountId_rejects := world_AccountId_rejects world_associated;
     world_populateAccountEvmAddress := world_populateAccountEvmAddress world_associated;
     world_sdk_rejects := world_sdk_rejects world_associated;
     world_handleTransaction := world_handleTransaction world_associated;
     world_Date_now := world_Date_now world_associated;
     world_first_fails_first := false |}.

(** A Mirror Node that answers 404 to the relationship lookup alone. *)
Definition world_relationship_down : World :=
  {| world_fetch := fun url =>
       if (url =? relationship_url sample_base "0.0.1001" "0.0.731861")%string
       then Ok response_404
       else world_fetch world_associated url;
     world_Number := world_Number world_associated;
     world_TokenId_toEvmAddress := world_TokenId_toEvmAddress world_associated;
     world_resolveAccount := world_resolveAccount world_associated;
     world_AccountId_rejects := world_AccountId_rejects world_associated;
     world_populateAccountEvmAddress := world_populateAccountEvmAddress world_associated;
     world_sdk_rejects := world_sdk_rejects world_associated;
     world_handleTransaction := world_handleTransaction world_associated;
     world_Date_now := world_Date_now world_associated;
     world_first_fails_first := true |}.

(** A handler that answers with unsigned bytes whatever the mode. *)
Definition world_bytes_handler : World :=
  {| world_fetch := world_fetch (world_not_associated "SUCCESS");
     world_Number := world_Number world_associated;
     world_TokenId_toEvmAddress := world_TokenId_toEvmAddress world_associated;
     world_resolveAccount := world_resolveAccount world_associated;
     world_AccountId_rejects := world_AccountId_rejects world_associated;
     world_populateAccountEvmAddress := world_populateAccountEvmAddress world_associated;
     world_sdk_rejects := world_sdk_rejects world_associated;
     world_handleTransaction := fun _ _ _ _ => Ok (UnsignedBytes [10; 2; 24; 1]);
     world_Date_now := world_Date_now world_associated;
     world_first_fails_first := true |}.

Definition no_ledger_client : Client := {| ledgerId := None |}.

(** A token descriptor without decimals that declares itself not fungible. *)
Definition world_no_decimals : World :=
  sample_world (JObj [("type", JStr "NON_FUNGIBLE_UNIQUE")]) associated_body
    (account_body 0) "SUCCESS".

(** The test of line 63 on a fetched descriptor. *)
Definition declared_not_fungible (tokenInfo : TokenInfo) : bool :=
  truthy (token_type tokenInfo)
  && negb (strict_eq_string (token_type tokenInfo) "FUNGIBLE_COMMON").

(** The ways lines 79 to 103 of the tool can go, for a resolved recipient
    on a network whose router is [routerId]: the interactions performed and
    the outcome of the [try] block. *)
Inductive swap_steps (w : World) (client : Client) (context : Context)
    (params : SwapHbarForTokenParams) (ledger : LedgerId) (routerId recipient : string)
  : list Event -> outcome ToolResult -> Prop :=
| steps_path_failed (e : thrown) :
    result (resolveSwapPath w ledger (tokenId params)) = Err e ->
    swap_steps w client context params ledger routerId recipient [] (Err e)
| steps_account_rejected (path : list string) (e : thrown) :
    result (resolveSwapPath w ledger (tokenId params)) = Ok path ->
    world_AccountId_rejects w recipient = Some e ->
    swap_steps w client context params ledger routerId recipient [] (Err e)
| steps_populate_failed (path : list string) (e : thrown) :
    result (resolveSwapPath w ledger (tokenId params)) = Ok path ->
    world_AccountId_rejects w recipient = None ->
    world_populateAccountEvmAddress w recipient client = Err e ->
    swap_steps w client context params ledger routerId recipient
      [PopulateAccountEvmAddress recipient] (Err e)
| steps_build_failed (path : list string) (address : string) (e : thrown) :
    result (resolveSwapPath w ledger (tokenId params)) = Ok path ->
    world_AccountId_rejects w recipient = None ->
    world_populateAccountEvmAddress w recipient client = Ok address ->
    world_sdk_rejects w
      (swap_transaction routerId (hbarAmount params) path address
         (world_Date_now w / 1000 + DEFAULT_DEADLINE_SECONDS)) = Some e ->
    swap_steps w client context params ledger routerId recipient
      [PopulateAccountEvmAddress recipient] (Err e)
| steps_handled (path : list string) (address : string) :
    result (resolveSwapPath w ledger (tokenId params)) = Ok path ->
    world_AccountId_rejects w recipient = None ->
    world_populateAccountEvmAddress w recipient client = Ok address ->
    let tx := swap_transaction routerId (hbarAmount params) path address
                (world_Date_now w / 1000 + DEFAULT_DEADLINE_SECONDS) in
    world_sdk_rejects w tx = None ->
    swap_steps w client context params ledger routerId recipient
      [PopulateAccountEvmAddress recipient; SdkBuild tx; HandleTransaction tx]
      match world_handleTransaction w tx client context None with
      | Ok handled => Ok (HandlerOutput handled)
      | Err e => Err e
      end.

(** The ways the [try] block of the tool can go. *)
Inductive execute_try_run (w : World) (client : Client) (context : Context)
    (params : SwapHbarForTokenParams) : list Event -> outcome ToolResult -> Prop :=
| run_no_ledger :
    ledgerId client = None ->
    execute_try_run w client context params []
      (Err (ThrownError "Unable to determine Hedera network from client."))
| run_unsupported (ledger : LedgerId) :
    ledgerId client = Some ledger ->
    Map_get LedgerIdToRouterContractID ledger = None ->
    execute_try_run w client context params []
      (Ok (BareString "Unsupported Hedera network for SaucerSwap router."))
| run_token_failed (ledger : LedgerId) (routerId baseUrl : string) (e : thrown) :
    ledgerId client = Some ledger ->
    Map_get LedgerIdToRouterContractID ledger = Some routerId ->
    Map_get LedgerIdToBaseUrl ledger = Some baseUrl ->
    result (fetchTokenInfoFromMirrorNode w baseUrl (tokenId params)) = Err e ->
    execute_try_run w client context params
      [HttpGet (token_url baseUrl (tokenId params))] (Err e)
| run_not_fungible (ledger : LedgerId) (routerId baseUrl : string) (tokenInfo : TokenInfo) :
    ledgerId client = Some ledger ->
    Map_get LedgerIdToRouterContractID ledger = Some routerId ->
    Map_get LedgerIdToBaseUrl ledger = Some baseUrl ->
    result (fetchTokenInfoFromMirrorNode w baseUrl (tokenId params)) = Ok tokenInfo ->
    declared_not_fungible tokenInfo = true ->
    execute_try_run w client context params
      [HttpGet (token_url baseUrl (tokenId params))]
      (Ok (BareString "This token is not a Fungible Token"))
| run_no_recipient (ledger : LedgerId) (routerId baseUrl : string) (tokenInfo : TokenInfo)
    (e : thrown) :
    ledgerId client = Some ledger ->
    Map_get LedgerIdToRouterContractID ledger = Some routerId ->
    Map_get LedgerIdToBaseUrl ledger = Some baseUrl ->
    result (fetchTokenInfoFromMirrorNode w baseUrl (tokenId params)) = Ok tokenInfo ->
    declared_not_fungible tokenInfo = false ->
    world_resolveAccount w (recipientAccountId params) context client = Err e ->
    execute_try_run w client context params
      [HttpGet (token_url baseUrl (tokenId params))] (Err e)
| run_guard_failed (ledger : LedgerId) (routerId baseUrl : string) (tokenInfo : TokenInfo)
    (recipient : string) (e : thrown) :
    ledgerId client = Some ledger ->
    Map_get LedgerIdToRouterContractID ledger = Some routerId ->
    Map_get LedgerIdToBaseUrl ledger = Some baseUrl ->
    result (fetchTokenInfoFromMirrorNode w baseUrl (tokenId params)) = Ok tokenInfo ->
    declared_not_fungible tokenInfo = false ->
    world_resolveAccount w (recipientAccountId params) context client = Ok recipient ->
    result (ensureTokenAssociation w client context recipient (tokenId params)) = Err e ->
    execute_try_run w client context params
      (HttpGet (token_url baseUrl (tokenId params))
       :: trace (ensureTokenAssociation w client context recipient (tokenId params)))
      (Err e)
| run_swap (ledger : LedgerId) (routerId baseUrl : string) (tokenInfo : TokenInfo)
    (recipient : string) (steps : list Event) (r : outcome ToolResult) :
    ledgerId client = Some ledger ->
    Map_get LedgerIdToRouterContractID ledger = Some routerId ->
    Map_get LedgerIdToBaseUrl ledger = Some baseUrl ->
    result (fetchTokenInfoFromMirrorNode w baseUrl (tokenId params)) = Ok tokenInfo ->
    declared_not_fungible tokenInfo = false ->
    world_resolveAccount w (recipientAccountId params) context client = Ok recipient ->
    result (ensureTokenAssociation w client context recipient (tokenId params)) = Ok tt ->
    swap_steps w client context params ledger routerId recipient steps r ->
    execute_try_run w client context params
      (HttpGet (token_url baseUrl (tokenId params))
       :: trace (ensureTokenAssociation w client context recipient (tokenId params))
       ++ steps)%list
      r.

(* ------------------------------------------------------------------ *)
(** ** Basic facts                                                     *)
(* ------------------------------------------------------------------ *)

Example show_Z_404 : show_Z 404 = "404".
Proof. reflexivity. Qed.

Example trim_example : trim (String (ascii_of_nat 10) "  not found  ") = "not found".
Proof. reflexivity. Qed.

Example form_encode_token : form_encode "0.0.731861" = "0.0.731861".
Proof. reflexivity. Qed.

Example form_encode_reserved : form_encode "a b/c" = "a+b%2Fc".
Proof. reflexivity. Qed.

Lemma M_eta {A} (m : M A) : m = (trace m, result m).
Proof. destruct m; reflexivity. Qed.

Lemma supported_base_url (ledger : LedgerId) (url : string) :
  Map_get LedgerIdToBaseUrl ledger = Some url ->
  if_truthy (Map_get LedgerIdToBaseUrl ledger) = Some url.
Proof. destruct ledger; simpl; intros H; inversion H; reflexivity. Qed.

Lemma supported_router (ledger : LedgerId) (routerId : string) :
  Map_get LedgerIdToRouterContractID ledger = Some routerId ->
  if_truthy (Map_get LedgerIdToRouterContractID ledger) = Some routerId.
Proof. destruct ledger; simpl; intros H; inversion H; reflexivity. Qed.

Lemma supported_whbar (ledger : LedgerId) (whbarId : string) :
  Map_get LedgerIdToWHbarID ledger = Some whbarId ->
  if_truthy (Map_get LedgerIdToWHbarID ledger) = Some whbarId.
Proof. destruct ledger; simpl; intros H; inversion H; reflexivity. Qed.

(** The three tables are defined on the same two networks. *)
Lemma unsupported_everywhere (ledger : LedgerId) :
  ledger <> TESTNET -> ledger <> MAINNET ->
  Map_get LedgerIdToRouterContractID ledger = None
  /\ Map_get LedgerIdToWHbarID ledger = None
  /\ Map_get LedgerIdToBaseUrl ledger = None.
Proof. destruct ledger; intros Ht Hm; try contradiction; repeat split. Qed.

Lemma fetchFromMirrorNode_trace (w : World) (url : string) :
  trace (fetchFromMirrorNode w url) = [HttpGet url].
Proof.
  unfold fetchFromMirrorNode, do_fetch, lift, emit, throw, bind, trace; simpl.
  destruct (world_fetch w url) as [response|e]; simpl; [|reflexivity].
  destruct (http_ok response); simpl; [|reflexivity].
  destruct (http_json response); reflexivity.
Qed.

Lemma bind_Ok {A B} (a : A) (f : A -> M B) : bind ([], Ok a) f = f a.
Proof. unfold bind. destruct (f a); reflexivity. Qed.

Lemma mirrorNodeAccountHasToken_trace (w : World) (baseUrl accountId tokenId : string) :
  trace (mirrorNodeAccountHasToken w baseUrl accountId tokenId)
  = [HttpGet (relationship_url baseUrl accountId tokenId)].
Proof.
  unfold mirrorNodeAccountHasToken.
  set (url := (baseUrl ++ _)%string).
  assert (Hurl : url = relationship_url baseUrl accountId tokenId) by reflexivity.
  rewrite <- Hurl.
  pose proof (fetchFromMirrorNode_trace w url) as Ht.
  destruct (fetchFromMirrorNode w url) as [t [data|e]]; unfold trace in *; simpl in *; subst t.
  - destruct (select_relationships data) as [rels|e]; simpl; [|reflexivity].
    destruct (some_token_id rels tokenId); reflexivity.
  - reflexivity.
Qed.

Lemma mirrorNodeAccountMaxAutoAssociations_trace (w : World) (baseUrl accountId : string) :
  trace (mirrorNodeAccountMaxAutoAssociations w baseUrl accountId)
  = [HttpGet (account_url baseUrl accountId)].
Proof.
  unfold mirrorNodeAccountMaxAutoAssociations, account_url.
  pose proof (fetchFromMirrorNode_trace w (baseUrl ++ "/accounts/" ++ accountId)) as Ht.
  destruct (fetchFromMirrorNode w _) as [t [data|e]]; unfold trace in *; simpl in *; subst t.
  - destruct (get_prop data _) as [v|e]; reflexivity.
  - reflexivity.
Qed.

(* ------------------------------------------------------------------ *)
(** ** The association guard                                           *)
(* ------------------------------------------------------------------ *)

Section AssociationGuard.

Variable w : World.
Variable client : Client.
Variable context : Context.
Variables accountId tokenId : string.

(** The client is on a network with a Mirror Node, and both lookups
    answer. *)
Variable ledger : LedgerId.
Variable baseUrl : string.
Hypothesis client_ledger : ledgerId client = Some ledger.
Hypothesis ledger_base : Map_get LedgerIdToBaseUrl ledger = Some baseUrl.

Variable isAssociated : bool.
Variable maxAutoAssociations : Z.
Hypothesis relationship_lookup :
  result (mirrorNodeAccountHasToken w baseUrl accountId tokenId) = Ok isAssociated.
Hypothesis ceiling_lookup :
  result (mirrorNodeAccountMaxAutoAssociations w baseUrl accountId)
  = Ok maxAutoAssociations.

Local Abbreviation lookups := (guard_lookups baseUrl accountId tokenId).

(** The guard up to its decision: what is left to run once both lookups
    have answered. *)
Lemma ensureTokenAssociation_after_lookups :
  ensureTokenAssociation w client context accountId tokenId
  = bind (lookups, Ok (isAssociated, maxAutoAssociations))
      (fun both =>
         let '(isAssociated, maxAutoAssociations) := both in
         if isAssociated || (maxAutoAssociations =? -1) then ret tt
         else if is_RETURN_BYTES (mode context) then
           throw (ThrownError association_required_message)
         else
           associateTx <- build w (association_transaction accountId tokenId) ;;
           associationResult <-
             handle w associateTx client context
               (Some (association_message tokenId accountId)) ;;
           match associationResult with
           | Executed raw _ =>
               if negb (status raw =? "SUCCESS")%string then
                 throw (ThrownError ("Token association failed: " ++ status raw))
               else ret tt
           | UnsignedBytes _ =>
               throw (ThrownError
                        "Unexpected RETURN_BYTES result while associating token.")
           end).
Proof.
  unfold ensureTokenAssociation, requireClientLedger.
  rewrite client_ledger.
  unfold lift at 1. rewrite bind_Ok.
  rewrite (supported_base_url _ _ ledger_base).
  rewrite (M_eta (mirrorNodeAccountHasToken w baseUrl accountId tokenId)).
  rewrite (M_eta (mirrorNodeAccountMaxAutoAssociations w baseUrl accountId)).
  rewrite mirrorNodeAccountHasToken_trace, mirrorNodeAccountMaxAutoAssociations_trace.
  rewrite relationship_lookup, ceiling_lookup.
  reflexivity.
Qed.

(** C2.  When the relationship lookup reports that the account holds the
    token, or the account's maximum of automatic associations is -1, the
    guard returns normally; it has issued the two lookups and nothing
    else: no association transaction is configured or submitted.  The
    value of the other lookup plays no part. *)
Theorem ensureTokenAssociation_nothing_to_do :
  isAssociated = true \/ maxAutoAssociations = -1 ->
  ensureTokenAssociation w client context accountId tokenId = (lookups, Ok tt)
  /\ no_transaction (trace (ensureTokenAssociation w client context accountId tokenId))
     = true.
Proof.
  intros Hdecision.
  rewrite ensureTokenAssociation_after_lookups.
  assert (Htest : isAssociated || (maxAutoAssociations =? -1) = true).
  { destruct Hdecision as [-> | ->]; [reflexivity | apply orb_true_r]. }
  unfold bind. rewrite Htest. simpl. split; reflexivity.
Qed.

(** C3.  When the account does not hold the token, its maximum of
    automatic associations is not -1 and the context's mode is
    RETURN_BYTES, the guard throws the association-required error; it has
    issued the two lookups and nothing else: no association transaction is
    configured or submitted. *)
Theorem ensureTokenAssociation_return_bytes :
  isAssociated = false ->
  maxAutoAssociations <> -1 ->
  mode context = Some RETURN_BYTES ->
  ensureTokenAssociation w client context accountId tokenId
  = (lookups,
     Err (ThrownError
            "Recipient account lacks token association. Please associate the token before requesting RETURN_BYTES."))
  /\ no_transaction (trace (ensureTokenAssociation w client context accountId tokenId))
     = true.
Proof.
  intros Hhas Hmax Hmode.
  rewrite ensureTokenAssociation_after_lookups.
  apply Z.eqb_neq in Hmax.
  unfold bind. rewrite Hhas, Hmax, Hmode. simpl. split; reflexivity.
Qed.

(** The association is attempted and the handler reports an executed
    transaction whose status is not SUCCESS. *)
Lemma ensureTokenAssociation_failed (raw : RawTransactionResponse) (message : string) :
  isAssociated = false ->
  maxAutoAssociations <> -1 ->
  is_RETURN_BYTES (mode context) = false ->
  world_sdk_rejects w (association_transaction accountId tokenId) = None ->
  world_handleTransaction w (association_transaction accountId tokenId) client context
    (Some (association_message tokenId accountId)) = Ok (Executed raw message) ->
  status raw <> "SUCCESS" ->
  ensureTokenAssociation w client context accountId tokenId
  = ((lookups ++ [ SdkBuild (association_transaction accountId tokenId);
                   HandleTransaction (association_transaction accountId tokenId) ])%list,
     Err (ThrownError ("Token association failed: " ++ status raw))).
Proof.
  intros Hhas Hmax Hmode Hbuild Hhandle Hstatus.
  rewrite ensureTokenAssociation_after_lookups.
  apply Z.eqb_neq in Hmax. apply String.eqb_neq in Hstatus.
  unfold bind at 1. rewrite Hhas, Hmax, Hmode. simpl orb. cbv iota.
  unfold build, handle. rewrite Hbuild.
  unfold bind, emit, lift, ret, throw. rewrite Hhandle, Hstatus. simpl.
  reflexivity.
Qed.

End AssociationGuard.

(* ------------------------------------------------------------------ *)
(** ** The swap path resolver                                          *)
(* ------------------------------------------------------------------ *)

Lemma resolveSwapPath_trace (w : World) (ledger : LedgerId) (tokenId : string) :
  trace (resolveSwapPath w ledger tokenId) = [].
Proof.
  unfold resolveSwapPath.
  destruct (if_truthy (Map_get LedgerIdToWHbarID ledger)) as [whbarId|]; [|reflexivity].
  unfold bind, lift, ret, trace.
  destruct (world_TokenId_toEvmAddress w whbarId); [|reflexivity].
  destruct (world_TokenId_toEvmAddress w tokenId); reflexivity.
Qed.

(** The resolver reads nothing of the world but the SDK's conversion of a
    token id. *)
Lemma resolveSwapPath_depends_on_conversion_only
    (w w' : World) (ledger : LedgerId) (tokenId : string) :
  (forall s, world_TokenId_toEvmAddress w' s = world_TokenId_toEvmAddress w s) ->
  resolveSwapPath w' ledger tokenId = resolveSwapPath w ledger tokenId.
Proof.
  intros Hsame. unfold resolveSwapPath.
  destruct (if_truthy (Map_get LedgerIdToWHbarID ledger)) as [whbarId|]; [|reflexivity].
  rewrite !Hsame. reflexivity.
Qed.

(** C8, as amended.  [resolveSwapPath] performs no interaction on any
    input and reads nothing of the world but the SDK's conversion of a token
    id, so two calls with the same inputs agree.  On a network with a
    configured wrapped-HBAR token it returns exactly two addresses, the first
    being the address of that network's wrapped-HBAR token, when the SDK
    converts the token id; when the SDK rejects the wrapped-HBAR id or the
    token id it throws what the SDK threw.  On a network without a configured
    wrapped-HBAR token it throws the unsupported-network error. *)
Theorem resolveSwapPath_spec (w : World) (ledger : LedgerId) (tokenId : string) :
  trace (resolveSwapPath w ledger tokenId) = []
  /\ (forall w',
        (forall s, world_TokenId_toEvmAddress w' s = world_TokenId_toEvmAddress w s) ->
        resolveSwapPath w' ledger tokenId = resolveSwapPath w ledger tokenId)
  /\ (forall whbarId first second,
        Map_get LedgerIdToWHbarID ledger = Some whbarId ->
        world_TokenId_toEvmAddress w whbarId = Ok first ->
        world_TokenId_toEvmAddress w tokenId = Ok second ->
        resolveSwapPath w ledger tokenId = ([], Ok [first; second]))
  /\ (forall whbarId e,
        Map_get LedgerIdToWHbarID ledger = Some whbarId ->
        world_TokenId_toEvmAddress w whbarId = Err e
        \/ ((exists first, world_TokenId_toEvmAddress w whbarId = Ok first)
            /\ world_TokenId_toEvmAddress w tokenId = Err e) ->
        resolveSwapPath w ledger tokenId = ([], Err e))
  /\ (Map_get LedgerIdToWHbarID ledger = None ->
      resolveSwapPath w ledger tokenId
      = ([], Err (ThrownError "Unsupported Hedera network for WHBAR mapping."))).
Proof.
  split; [apply resolveSwapPath_trace|].
  split; [intros w' Hsame; now apply resolveSwapPath_depends_on_conversion_only|].
  split; [|split].
  - intros whbarId first second Hwhbar Hfirst Hsecond.
    unfold resolveSwapPath. rewrite (supported_whbar _ _ Hwhbar).
    unfold bind, lift, ret. rewrite Hfirst, Hsecond. reflexivity.
  - intros whbarId e Hwhbar Hfailed.
    unfold resolveSwapPath. rewrite (supported_whbar _ _ Hwhbar).
    unfold bind, lift, ret.
    destruct Hfailed as [Hfirst | [[first Hfirst] Hsecond]].
    + rewrite Hfirst. reflexivity.
    + rewrite Hfirst, Hsecond. reflexivity.
  - intros Hnone. unfold resolveSwapPath. rewrite Hnone. reflexivity.
Qed.

Lemma resolveSwapPath_spec_witness :
  resolveSwapPath world_associated TESTNET "0.0.731861"
  = ([], Ok [ "0000000000000000000000000000000000003ad2";
              "00000000000000000000000000000000000b2ad5" ])
  /\ resolveSwapPath world_associated TESTNET "abc"
     = ([], Err (ThrownError "failed to parse entity id: abc"))
  /\ resolveSwapPath world_associated PREVIEWNET "0.0.731861"
     = ([], Err (ThrownError "Unsupported Hedera network for WHBAR mapping.")).
Proof.
  split; [|split].
  - destruct (resolveSwapPath_spec world_associated TESTNET "0.0.731861")
      as [_ [_ [Hpath _]]].
    exact (Hpath "0.0.15058" "0000000000000000000000000000000000003ad2"
             "00000000000000000000000000000000000b2ad5" eq_refl eq_refl eq_refl).
  - destruct (resolveSwapPath_spec world_associated TESTNET "abc")
      as [_ [_ [_ [Hrejected _]]]].
    apply (Hrejected "0.0.15058" (ThrownError "failed to parse entity id: abc") eq_refl).
    right. split; [eexists; reflexivity | reflexivity].
  - destruct (resolveSwapPath_spec world_associated PREVIEWNET "0.0.731861")
      as [_ [_ [_ [_ Hunsupported]]]].
    exact (Hunsupported eq_refl).
Defined.

(** C8 as stated fails on a token id the SDK does not parse.  The test
    network has a configured wrapped-HBAR token and [abc] has the three
    characters the schema asks for, yet [resolveSwapPath] returns no
    addresses and does not fail with the unsupported-network error either:
    it throws the SDK's parse error. *)
Lemma resolveSwapPath_unparsed_token_counterexample :
  Map_get LedgerIdToWHbarID TESTNET = Some "0.0.15058"
  /\ String.length "abc" = 3%nat
  /\ world_TokenId_toEvmAddress world_associated "abc"
     = Err (ThrownError "failed to parse entity id: abc")
  /\ resolveSwapPath world_associated TESTNET "abc"
     = ([], Err (ThrownError "failed to parse entity id: abc"))
  /\ (forall path, result (resolveSwapPath world_associated TESTNET "abc") <> Ok path)
  /\ result (resolveSwapPath world_associated TESTNET "abc")
     <> Err (ThrownError "Unsupported Hedera network for WHBAR mapping.").
Proof.
  repeat split; intros; discriminate.
Qed.

(* ------------------------------------------------------------------ *)
(** ** The Mirror Node lookups                                         *)
(* ------------------------------------------------------------------ *)

Lemma slice0_length (n : nat) (s : string) : (String.length (slice0 n s) <= n)%nat.
Proof.
  revert s. induction n as [|n IH]; intros s; simpl; [lia|].
  destruct s as [|c rest]; simpl; [lia|].
  specialize (IH rest). lia.
Qed.

Lemma slice0_prefix (n : nat) (s : string) : String.prefix (slice0 n s) s = true.
Proof.
  revert s. induction n as [|n IH]; intros s; simpl.
  - destruct s; reflexivity.
  - destruct s as [|c rest]; simpl; [reflexivity|].
    destruct (ascii_dec c c) as [_|Hne]; [apply IH | now elim Hne].
Qed.

(** The part of a rejected response's body that goes into the error
    message: at most 200 characters, the first ones of the trimmed body. *)
Lemma errorBody_bounded (response : HttpResponse) :
  (String.length (errorBody response) <= 200)%nat
  /\ String.prefix (errorBody response) (trim (http_text response)) = true.
Proof. split; [apply slice0_length | apply slice0_prefix]. Qed.

Lemma fetchTokenInfoFromMirrorNode_trace (w : World) (baseUrl tokenId : string) :
  trace (fetchTokenInfoFromMirrorNode w baseUrl tokenId)
  = [HttpGet (token_url baseUrl tokenId)].
Proof.
  unfold fetchTokenInfoFromMirrorNode, token_url, do_fetch, lift, emit, throw, ret,
    bind, trace; simpl.
  destruct (world_fetch w _) as [response|e]; simpl; [|reflexivity].
  destruct (http_ok response); simpl; [|reflexivity].
  destruct (http_json response) as [data|e]; simpl; [|reflexivity].
  destruct (get_prop data "decimals") as [decimals|e]; simpl; [|reflexivity].
  destruct (truthy decimals); simpl; [|reflexivity].
  destruct (get_prop data "type"); reflexivity.
Qed.

(** A response that is not successful is rejected, with the status and the
    bounded body in the message. *)
Lemma fetchTokenInfoFromMirrorNode_not_ok
    (w : World) (baseUrl tokenId : string) (response : HttpResponse) :
  world_fetch w (token_url baseUrl tokenId) = Ok response ->
  http_ok response = false ->
  result (fetchTokenInfoFromMirrorNode w baseUrl tokenId)
  = Err (ThrownError ("Mirror Node token lookup failed ("
                      ++ show_Z (http_status response) ++ ")."
                      ++ errorDetails response)).
Proof.
  intros Hfetch Hok.
  unfold fetchTokenInfoFromMirrorNode, do_fetch. fold (token_url baseUrl tokenId).
  unfold bind, emit, lift, throw, result. rewrite Hfetch. simpl.
  rewrite Hok. reflexivity.
Qed.

(** A successful response is rejected when its [decimals] is missing or
    falsy, and accepted, whatever [decimals] holds, when it is truthy. *)
Lemma fetchTokenInfoFromMirrorNode_ok
    (w : World) (baseUrl tokenId : string) (response : HttpResponse)
    (members : list (string * json)) :
  world_fetch w (token_url baseUrl tokenId) = Ok response ->
  http_ok response = true ->
  http_json response = Ok (JObj members) ->
  result (fetchTokenInfoFromMirrorNode w baseUrl tokenId)
  = if truthy (member "decimals" members)
    then Ok {| token_type := member "type" members;
               token_decimals := world_Number w (member "decimals" members) |}
    else Err (ThrownError "Mirror Node token info missing numeric decimals.").
Proof.
  intros Hfetch Hok Hjson.
  unfold fetchTokenInfoFromMirrorNode, do_fetch. fold (token_url baseUrl tokenId).
  unfold bind, emit, lift, throw, ret, result. rewrite Hfetch. simpl.
  rewrite Hok, Hjson. simpl.
  destruct (truthy (member "decimals" members)); reflexivity.
Qed.

(** C7, where the lookup does not reject.  For a successful response whose
    body is an object with a string that is not empty under [decimals],
    numeric or not, [fetchTokenInfoFromMirrorNode] does not throw: after its
    one request it returns the descriptor, its decimals being [Number] of that
    string.  The test before the conversion is one of truthiness only. *)
Theorem fetchTokenInfoFromMirrorNode_accepts_non_numeric_decimals
    (w : World) (baseUrl tokenId : string) (response : HttpResponse)
    (members : list (string * json)) (decimals : string) :
  world_fetch w (token_url baseUrl tokenId) = Ok response ->
  http_ok response = true ->
  http_json response = Ok (JObj members) ->
  member "decimals" members = Some (JStr decimals) ->
  decimals <> "" ->
  fetchTokenInfoFromMirrorNode w baseUrl tokenId
  = ([HttpGet (token_url baseUrl tokenId)],
     Ok {| token_type := member "type" members;
           token_decimals := world_Number w (Some (JStr decimals)) |}).
Proof.
  intros Hfetch Hok Hjson Hdecimals Hnonempty.
  rewrite (M_eta (fetchTokenInfoFromMirrorNode w baseUrl tokenId)).
  rewrite fetchTokenInfoFromMirrorNode_trace.
  rewrite (fetchTokenInfoFromMirrorNode_ok w baseUrl tokenId response members
             Hfetch Hok Hjson).
  rewrite Hdecimals. simpl.
  apply String.eqb_neq in Hnonempty. rewrite Hnonempty. reflexivity.
Qed.

(** The string [abc] for decimals: the descriptor comes back with NaN. *)
Lemma fetchTokenInfoFromMirrorNode_accepts_non_numeric_decimals_witness :
  fetchTokenInfoFromMirrorNode world_non_numeric_decimals sample_base "0.0.731861"
  = ([HttpGet (token_url sample_base "0.0.731861")],
     Ok {| token_type := Some (JStr "FUNGIBLE_COMMON"); token_decimals := NaN |}).
Proof.
  apply (fetchTokenInfoFromMirrorNode_accepts_non_numeric_decimals
           world_non_numeric_decimals sample_base "0.0.731861"
           (response_200 non_numeric_decimals_body)
           [("type", JStr "FUNGIBLE_COMMON"); ("decimals", JStr "abc")] "abc");
    [reflexivity | reflexivity | reflexivity | reflexivity | discriminate].
Defined.

Lemma strict_eq_string_true (v : jsval) (s : string) :
  strict_eq_string v s = true <-> v = Some (JStr s).
Proof.
  unfold strict_eq_string.
  destruct v as [[| | |t| |]|]; split; intros H; try discriminate.
  - apply String.eqb_eq in H. now subst.
  - inversion H. apply String.eqb_refl.
Qed.






(* ------------------------------------------------------------------ *)
(** ** The swap tool                                                   *)
(* ------------------------------------------------------------------ *)

(** C6.  [execute] always resolves to a result.  Whatever the [try] block
    throws is caught: the result is then the structured
    [{ raw: { error: message }, humanMessage: message }], with the message of
    the error (the fixed text for a thrown value that is no [Error]); what
    the [try] block returns is returned as it is. *)
Theorem execute_never_throws
    (w : World) (client : Client) (context : Context) (params : SwapHbarForTokenParams) :
  (exists r, result (execute w client context params) = Ok r)
  /\ match result (execute_try w client context params) with
     | Err e =>
         result (execute w client context params)
         = Ok (ErrorResult (reported_message e) (reported_message e))
     | Ok r => result (execute w client context params) = Ok r
     end.
Proof.
  unfold execute, try_catch.
  destruct (execute_try w client context params) as [t [r|e]]; simpl.
  - split; [exists r|]; reflexivity.
  - destruct e; simpl; split; eauto.
Qed.

(** What the tool does on a network outside the tables. *)
Lemma execute_unsupported
    (w : World) (client : Client) (context : Context) (params : SwapHbarForTokenParams)
    (ledger : LedgerId) :
  ledgerId client = Some ledger ->
  Map_get LedgerIdToRouterContractID ledger = None ->
  execute_try w client context params
  = ([], Ok (BareString "Unsupported Hedera network for SaucerSwap router.")).
Proof.
  intros Hledger Hrouter.
  unfold execute_try, requireClientLedger. rewrite Hledger.
  unfold lift. rewrite bind_Ok, Hrouter. reflexivity.
Qed.

(** C4, as amended.  On a network outside the two configured ones,
    [resolveSwapPath] and the base-URL lookup of the association guard each
    throw their unsupported-network error, and the tool's router lookup makes
    [execute] return the bare string "Unsupported Hedera network for
    SaucerSwap router." without throwing; none of the three performs any
    interaction. *)
Theorem unsupported_network
    (w : World) (client : Client) (context : Context) (params : SwapHbarForTokenParams)
    (ledger : LedgerId) (accountId tokenId : string) :
  ledgerId client = Some ledger ->
  ledger <> TESTNET ->
  ledger <> MAINNET ->
  resolveSwapPath w ledger tokenId
  = ([], Err (ThrownError "Unsupported Hedera network for WHBAR mapping."))
  /\ ensureTokenAssociation w client context accountId tokenId
     = ([], Err (ThrownError "Unsupported Hedera network for Mirror Node lookup."))
  /\ execute w client context params
     = ([], Ok (BareString "Unsupported Hedera network for SaucerSwap router.")).
Proof.
  intros Hledger Htest Hmain.
  destruct (unsupported_everywhere ledger Htest Hmain) as [Hrouter [Hwhbar Hbase]].
  split; [|split].
  - unfold resolveSwapPath. rewrite Hwhbar. reflexivity.
  - unfold ensureTokenAssociation, requireClientLedger. rewrite Hledger.
    unfold lift. rewrite bind_Ok, Hbase. reflexivity.
  - unfold execute. rewrite (execute_unsupported _ _ _ _ _ Hledger Hrouter).
    reflexivity.
Qed.

Lemma unsupported_network_witness :
  resolveSwapPath world_associated PREVIEWNET "0.0.731861"
  = ([], Err (ThrownError "Unsupported Hedera network for WHBAR mapping."))
  /\ ensureTokenAssociation world_associated previewnet_client autonomous_context
       "0.0.1001" "0.0.731861"
     = ([], Err (ThrownError "Unsupported Hedera network for Mirror Node lookup."))
  /\ execute world_associated previewnet_client autonomous_context sample_params
     = ([], Ok (BareString "Unsupported Hedera network for SaucerSwap router.")).
Proof.
  apply (unsupported_network world_associated previewnet_client autonomous_context
           sample_params PREVIEWNET "0.0.1001" "0.0.731861");
    [reflexivity | discriminate | discriminate].
Defined.

(** C4 as stated fails for the router lookup.  On the preview network the
    [try] block of [execute] throws nothing and [execute] does not report an
    error either: it returns a bare string. *)
Lemma router_lookup_counterexample :
  ledgerId previewnet_client = Some PREVIEWNET
  /\ Map_get LedgerIdToRouterContractID PREVIEWNET = None
  /\ (forall e,
        result (execute_try world_associated previewnet_client autonomous_context
                  sample_params) <> Err e)
  /\ (forall message human,
        result (execute world_associated previewnet_client autonomous_context
                  sample_params) <> Ok (ErrorResult message human))
  /\ result (execute world_associated previewnet_client autonomous_context
               sample_params)
     = Ok (BareString "Unsupported Hedera network for SaucerSwap router.").
Proof.
  repeat split; intros; discriminate.
Qed.

Section SwapTool.

Variable w : World.
Variable client : Client.
Variable context : Context.
Variable params : SwapHbarForTokenParams.

(** The client is on a configured network and the token lookup answers. *)
Variable ledger : LedgerId.
Variables routerId baseUrl : string.
Hypothesis client_ledger : ledgerId client = Some ledger.
Hypothesis ledger_router : Map_get LedgerIdToRouterContractID ledger = Some routerId.
Hypothesis ledger_base : Map_get LedgerIdToBaseUrl ledger = Some baseUrl.

Variable tokenInfo : TokenInfo.
Hypothesis token_lookup :
  result (fetchTokenInfoFromMirrorNode w baseUrl (tokenId params)) = Ok tokenInfo.

Local Abbreviation token_request := (HttpGet (token_url baseUrl (tokenId params))).

(** The [try] block once the token descriptor is there. *)
Lemma execute_try_after_token_lookup :
  execute_try w client context params
  = bind ([token_request], Ok tokenInfo)
      (fun tokenInfo =>
         if truthy (token_type tokenInfo)
            && negb (strict_eq_string (token_type tokenInfo) "FUNGIBLE_COMMON")
         then ret (BareString "This token is not a Fungible Token")
         else
           recipient <- lift (world_resolveAccount w (recipientAccountId params)
                                context client) ;;
           ensureTokenAssociation w client context recipient (tokenId params) ;;;
           path <- resolveSwapPath w ledger (tokenId params) ;;
           let deadline := world_Date_now w / 1000 + DEFAULT_DEADLINE_SECONDS in
           recipientAccountEvmAddress <-
             populateAccountEvmAddress w recipient client ;;
           tx <- build w (swap_transaction routerId (hbarAmount params) path
                            recipientAccountEvmAddress deadline) ;;
           result <- handle w tx client context None ;;
           ret (HandlerOutput result)).
Proof.
  unfold execute_try, requireClientLedger. rewrite client_ledger.
  unfold lift at 1. rewrite bind_Ok.
  rewrite (supported_router _ _ ledger_router), (supported_base_url _ _ ledger_base).
  rewrite (M_eta (fetchTokenInfoFromMirrorNode w baseUrl (tokenId params))).
  rewrite fetchTokenInfoFromMirrorNode_trace, token_lookup.
  reflexivity.
Qed.

(** C5, as amended.  When the declared type of the fetched descriptor is
    truthy (a string that is not empty, in particular) and is not the
    string FUNGIBLE_COMMON, [execute] returns the bare string "This token
    is not a Fungible Token"; the token lookup is the only interaction of
    the run: no association check, no transaction. *)
Theorem execute_not_fungible :
  truthy (token_type tokenInfo) = true ->
  token_type tokenInfo <> Some (JStr "FUNGIBLE_COMMON") ->
  execute w client context params
  = ([token_request], Ok (BareString "This token is not a Fungible Token"))
  /\ network_calls (trace (execute w client context params)) = [token_request]
  /\ no_transaction (trace (execute w client context params)) = true.
Proof.
  intros Htruthy Hmarker.
  assert (Hrun : execute w client context params
                 = ([token_request],
                    Ok (BareString "This token is not a Fungible Token"))).
  { unfold execute. rewrite execute_try_after_token_lookup.
    assert (Hneq : strict_eq_string (token_type tokenInfo) "FUNGIBLE_COMMON" = false).
    { destruct (strict_eq_string _ _) eqn:Heq; [|reflexivity].
      apply strict_eq_string_true in Heq. contradiction. }
    unfold bind. rewrite Htruthy, Hneq. reflexivity. }
  rewrite Hrun. repeat split.
Qed.

(** The recipient is resolved. *)
Variable recipient : string.
Hypothesis recipient_resolved :
  world_resolveAccount w (recipientAccountId params) context client = Ok recipient.

(** The [try] block of a fungible token (or one of undeclared type) once
    the association guard has run. *)
Lemma execute_try_after_guard (guard_trace : list Event) (guard : outcome unit) :
  token_type tokenInfo = None \/ token_type tokenInfo = Some (JStr "FUNGIBLE_COMMON") ->
  ensureTokenAssociation w client context recipient (tokenId params)
  = (guard_trace, guard) ->
  execute_try w client context params
  = bind ((token_request :: guard_trace)%list, guard)
      (fun _ =>
         path <- resolveSwapPath w ledger (tokenId params) ;;
         let deadline := world_Date_now w / 1000 + DEFAULT_DEADLINE_SECONDS in
         recipientAccountEvmAddress <-
           populateAccountEvmAddress w recipient client ;;
         tx <- build w (swap_transaction routerId (hbarAmount params) path
                          recipientAccountEvmAddress deadline) ;;
         result <- handle w tx client context None ;;
         ret (HandlerOutput result)).
Proof.
  intros Hfungible Hguard.
  rewrite execute_try_after_token_lookup.
  assert (Htest : truthy (token_type tokenInfo)
                  && negb (strict_eq_string (token_type tokenInfo) "FUNGIBLE_COMMON")
                  = false).
  { destruct Hfungible as [-> | ->]; reflexivity. }
  unfold bind at 1. rewrite Htest.
  unfold lift. rewrite recipient_resolved, bind_Ok, Hguard.
  destruct guard as [[]|e]; unfold bind at 1.
  - match goal with
    | |- (let '(t', r) := let '(t'', r') := ?m in _ in _) = _ =>
        destruct m as [t r]
    end.
    unfold bind at 1. reflexivity.
  - reflexivity.
Qed.

(** C1.  On the success path (a configured network, a token lookup that
    answers with a fungible token or one of undeclared type, a resolved
    recipient for whom the association guard returns, a resolved path and
    recipient address, a transaction the SDK accepts and the handler
    answers), the one contract execution handed to [handleTransaction]
    targets the network's router with gas 400000, payable amount the
    requested [hbarAmount], function swapExactETHForTokens and the
    parameters, in this order: 0 for the minimum output, the swap path, the
    recipient's EVM address, and the deadline, which is the clock's reading
    in whole seconds plus 300.  [execute] returns the handler's result
    unchanged. *)
Theorem execute_success
    (guard_trace : list Event) (path : list string)
    (recipientAccountEvmAddress : string) (handled : HandlerResult) :
  token_type tokenInfo = None \/ token_type tokenInfo = Some (JStr "FUNGIBLE_COMMON") ->
  ensureTokenAssociation w client context recipient (tokenId params)
  = (guard_trace, Ok tt) ->
  result (resolveSwapPath w ledger (tokenId params)) = Ok path ->
  world_AccountId_rejects w recipient = None ->
  world_populateAccountEvmAddress w recipient client = Ok recipientAccountEvmAddress ->
  let tx :=
    ContractExecuteTransaction routerId 400000 (hbarAmount params)
      "swapExactETHForTokens"
      [ Uint256 0; AddressArray path; Address recipientAccountEvmAddress;
        Uint256 (world_Date_now w / 1000 + 300) ] in
  world_sdk_rejects w tx = None ->
  world_handleTransaction w tx client context None = Ok handled ->
  execute w client context params
  = ((token_request :: guard_trace
      ++ [ PopulateAccountEvmAddress recipient; SdkBuild tx; HandleTransaction tx ])%list,
     Ok (HandlerOutput handled)).
Proof.
  intros Hfungible Hguard Hpath Haccount Hevm tx Hbuild Hhandle.
  unfold execute.
  rewrite (execute_try_after_guard guard_trace (Ok tt) Hfungible Hguard).
  rewrite (M_eta (resolveSwapPath w ledger (tokenId params))).
  rewrite resolveSwapPath_trace, Hpath.
  unfold populateAccountEvmAddress. rewrite Haccount.
  unfold build. fold DEFAULT_SWAP_GAS in tx.
  change (swap_transaction routerId (hbarAmount params) path
            recipientAccountEvmAddress
            (world_Date_now w / 1000 + DEFAULT_DEADLINE_SECONDS))
    with tx.
  unfold bind, emit, lift, ret, handle. rewrite Hevm. simpl.
  change (swap_transaction routerId (hbarAmount params) path
            recipientAccountEvmAddress
            (world_Date_now w / 1000 + DEFAULT_DEADLINE_SECONDS))
    with tx.
  rewrite Hbuild. simpl. rewrite Hhandle. simpl.
  reflexivity.
Qed.

(** C9.  When the recipient does not hold the token, its maximum of
    automatic associations is not -1, the mode is not RETURN_BYTES, and the
    association transaction handed to [handleTransaction] comes back
    executed with a status other than SUCCESS, the guard throws "Token
    association failed: " followed by that status; [execute] reports this
    message and its run configures and hands over no swap transaction. *)
Theorem execute_association_failed
    (maxAutoAssociations : Z) (raw : RawTransactionResponse) (message : string) :
  token_type tokenInfo = None \/ token_type tokenInfo = Some (JStr "FUNGIBLE_COMMON") ->
  result (mirrorNodeAccountHasToken w baseUrl recipient (tokenId params)) = Ok false ->
  result (mirrorNodeAccountMaxAutoAssociations w baseUrl recipient)
  = Ok maxAutoAssociations ->
  maxAutoAssociations <> -1 ->
  mode context <> Some RETURN_BYTES ->
  world_sdk_rejects w (association_transaction recipient (tokenId params)) = None ->
  world_handleTransaction w (association_transaction recipient (tokenId params))
    client context (Some (association_message (tokenId params) recipient))
  = Ok (Executed raw message) ->
  status raw <> "SUCCESS" ->
  let guard_trace :=
    [ HttpGet (relationship_url baseUrl recipient (tokenId params));
      HttpGet (account_url baseUrl recipient);
      SdkBuild (association_transaction recipient (tokenId params));
      HandleTransaction (association_transaction recipient (tokenId params)) ] in
  let failure := "Token association failed: " ++ status raw in
  ensureTokenAssociation w client context recipient (tokenId params)
  = (guard_trace, Err (ThrownError failure))
  /\ execute w client context params
     = ((token_request :: guard_trace ++ [ConsoleError failure])%list,
        Ok (ErrorResult failure failure))
  /\ no_swap (trace (execute w client context params)) = true.
Proof.
  intros Hfungible Hhas Hmax Hceiling Hmode Hbuild Hhandle Hstatus guard_trace failure.
  assert (Hbytes : is_RETURN_BYTES (mode context) = false).
  { destruct (mode context) as [[|]|]; try reflexivity. now elim Hmode. }
  pose proof (ensureTokenAssociation_failed w client context recipient (tokenId params)
                ledger baseUrl client_ledger ledger_base false maxAutoAssociations
                Hhas Hmax raw message eq_refl Hceiling Hbytes Hbuild Hhandle Hstatus)
    as Hguard.
  simpl app in Hguard. fold guard_trace failure in Hguard.
  assert (Hrun : execute w client context params
                 = ((token_request :: guard_trace ++ [ConsoleError failure])%list,
                    Ok (ErrorResult failure failure))).
  { unfold execute.
    rewrite (execute_try_after_guard guard_trace _ Hfungible Hguard).
    reflexivity. }
  split; [exact Hguard|]. split; [exact Hrun|].
  rewrite Hrun. reflexivity.
Qed.

End SwapTool.

(* ------------------------------------------------------------------ *)
(** ** The properties on the test network                              *)
(* ------------------------------------------------------------------ *)

Lemma ensureTokenAssociation_nothing_to_do_witness :
  (ensureTokenAssociation world_associated testnet_client autonomous_context
     "0.0.1001" "0.0.731861" = (sample_lookups, Ok tt)
   /\ no_transaction
        (trace (ensureTokenAssociation world_associated testnet_client
                  autonomous_context "0.0.1001" "0.0.731861")) = true)
  /\ (ensureTokenAssociation world_unlimited testnet_client autonomous_context
        "0.0.1001" "0.0.731861" = (sample_lookups, Ok tt)
      /\ no_transaction
           (trace (ensureTokenAssociation world_unlimited testnet_client
                     autonomous_context "0.0.1001" "0.0.731861")) = true).
Proof.
  split.
  - apply (ensureTokenAssociation_nothing_to_do world_associated testnet_client
             autonomous_context "0.0.1001" "0.0.731861" TESTNET sample_base
             eq_refl eq_refl true 0 eq_refl eq_refl).
    left. reflexivity.
  - apply (ensureTokenAssociation_nothing_to_do world_unlimited testnet_client
             autonomous_context "0.0.1001" "0.0.731861" TESTNET sample_base
             eq_refl eq_refl false (-1) eq_refl eq_refl).
    right. reflexivity.
Defined.

Lemma ensureTokenAssociation_return_bytes_witness :
  ensureTokenAssociation (world_not_associated "SUCCESS") testnet_client
    return_bytes_context "0.0.1001" "0.0.731861"
  = (sample_lookups,
     Err (ThrownError
            "Recipient account lacks token association. Please associate the token before requesting RETURN_BYTES."))
  /\ no_transaction
       (trace (ensureTokenAssociation (world_not_associated "SUCCESS") testnet_client
                 return_bytes_context "0.0.1001" "0.0.731861")) = true.
Proof.
  apply (ensureTokenAssociation_return_bytes (world_not_associated "SUCCESS")
           testnet_client return_bytes_context "0.0.1001" "0.0.731861" TESTNET
           sample_base eq_refl eq_refl false 0 eq_refl eq_refl);
    [reflexivity | lia | reflexivity].
Defined.

Lemma execute_success_witness :
  execute world_associated testnet_client autonomous_context sample_params
  = ((HttpGet (token_url sample_base "0.0.731861") :: sample_lookups
      ++ [ PopulateAccountEvmAddress "0.0.1001"; SdkBuild sample_swap;
           HandleTransaction sample_swap ])%list,
     Ok (HandlerOutput (Executed (sample_receipt "SUCCESS") "{}"))).
Proof.
  apply (execute_success world_associated testnet_client autonomous_context
           sample_params TESTNET "0.0.19264" sample_base eq_refl eq_refl eq_refl
           sample_token_info eq_refl "0.0.1001" eq_refl sample_lookups
           [ "0000000000000000000000000000000000003ad2";
             "00000000000000000000000000000000000b2ad5" ]
           "00000000000000000000000000000000000003e9"
           (Executed (sample_receipt "SUCCESS") "{}"));
    [right; reflexivity | reflexivity | reflexivity | reflexivity | reflexivity
    | reflexivity | reflexivity].
Defined.

Lemma execute_association_failed_witness :
  ensureTokenAssociation (world_not_associated "INVALID_SIGNATURE") testnet_client
    autonomous_context "0.0.1001" "0.0.731861"
  = ((sample_lookups
      ++ [SdkBuild sample_association; HandleTransaction sample_association])%list,
     Err (ThrownError "Token association failed: INVALID_SIGNATURE"))
  /\ execute (world_not_associated "INVALID_SIGNATURE") testnet_client
       autonomous_context sample_params
     = ((HttpGet (token_url sample_base "0.0.731861") :: sample_lookups
         ++ [ SdkBuild sample_association; HandleTransaction sample_association;
              ConsoleError "Token association failed: INVALID_SIGNATURE" ])%list,
        Ok (ErrorResult "Token association failed: INVALID_SIGNATURE"
              "Token association failed: INVALID_SIGNATURE"))
  /\ no_swap (trace (execute (world_not_associated "INVALID_SIGNATURE") testnet_client
                       autonomous_context sample_params)) = true.
Proof.
  apply (execute_association_failed (world_not_associated "INVALID_SIGNATURE")
           testnet_client autonomous_context sample_params TESTNET "0.0.19264"
           sample_base eq_refl eq_refl eq_refl sample_token_info eq_refl
           "0.0.1001" eq_refl 0 (sample_receipt "INVALID_SIGNATURE")
           "Associated token 0.0.731861 with account 0.0.1001. Status: INVALID_SIGNATURE.");
    [right; reflexivity | reflexivity | reflexivity | lia | discriminate
    | reflexivity | reflexivity | discriminate].
Defined.

Lemma execute_not_fungible_witness :
  execute world_non_fungible testnet_client autonomous_context sample_params
  = ([HttpGet (token_url sample_base "0.0.731861")],
     Ok (BareString "This token is not a Fungible Token"))
  /\ network_calls (trace (execute world_non_fungible testnet_client
                             autonomous_context sample_params))
     = [HttpGet (token_url sample_base "0.0.731861")]
  /\ no_transaction (trace (execute world_non_fungible testnet_client
                              autonomous_context sample_params)) = true.
Proof.
  apply (execute_not_fungible world_non_fungible testnet_client autonomous_context
           sample_params TESTNET "0.0.19264" sample_base eq_refl eq_refl eq_refl
           {| token_type := Some (JStr "NON_FUNGIBLE_UNIQUE");
              token_decimals := Finite (inject_Z 6) |} eq_refl);
    [reflexivity | discriminate].
Defined.

(** C5 as stated fails on a declared type that is present and falsy.  The
    descriptor's type is the empty string, which is there and is not
    FUNGIBLE_COMMON; [execute] does not return the not-fungible string: it
    goes on to the association check and hands the swap to the handler. *)
Lemma execute_empty_type_counterexample :
  result (fetchTokenInfoFromMirrorNode world_empty_type sample_base "0.0.731861")
  = Ok {| token_type := Some (JStr ""); token_decimals := Finite (inject_Z 6) |}
  /\ Some (JStr "") <> Some (JStr "FUNGIBLE_COMMON")
  /\ result (execute world_empty_type testnet_client autonomous_context sample_params)
     <> Ok (BareString "This token is not a Fungible Token")
  /\ execute world_empty_type testnet_client autonomous_context sample_params
     = ((HttpGet (token_url sample_base "0.0.731861") :: sample_lookups
         ++ [ PopulateAccountEvmAddress "0.0.1001"; SdkBuild sample_swap;
              HandleTransaction sample_swap ])%list,
        Ok (HandlerOutput (Executed (sample_receipt "SUCCESS") "{}"))).
Proof.
  repeat split; discriminate.
Qed.

(* ------------------------------------------------------------------ *)
(** ** The query string of the relationship lookup                     *)
(* ------------------------------------------------------------------ *)

Lemma string_forall_app (p : ascii -> bool) (s t : string) :
  string_forall p (s ++ t) = string_forall p s && string_forall p t.
Proof.
  induction s as [|c s IH]; simpl; [reflexivity|].
  rewrite IH. apply andb_assoc.
Qed.

Lemma form_encode_cons (c : ascii) (rest : string) :
  form_encode (String c rest) = form_encode_char c ++ form_encode rest.
Proof. reflexivity. Qed.

Lemma form_encode_char_output (c : ascii) :
  string_forall form_output_char (form_encode_char c) = true.
Proof.
  destruct c as [[] [] [] [] [] [] [] []]; vm_compute; reflexivity.
Qed.

Lemma form_encode_output (s : string) :
  string_forall form_output_char (form_encode s) = true.
Proof.
  induction s as [|c rest IH]; [reflexivity|].
  rewrite form_encode_cons, string_forall_app, form_encode_char_output, IH.
  reflexivity.
Qed.

(** X1.  Whatever the token id, the relationship lookup requests
    [{base}/accounts/{account}/tokens?token.id={value}&limit=1] where the
    value, which stands for the token id, holds nothing but ASCII letters
    and digits, [* - . _], [+] and [%]: no [&], [=], [#] or white space of
    the token id reaches the address as it is.  (The account id, in contrast,
    is put into the path as it is given.) *)
Theorem mirrorNodeAccountHasToken_query
    (w : World) (baseUrl accountId tokenId : string) :
  exists value,
    trace (mirrorNodeAccountHasToken w baseUrl accountId tokenId)
    = [HttpGet (baseUrl ++ "/accounts/" ++ accountId ++ "/tokens?token.id="
                ++ value ++ "&limit=1")]
    /\ string_forall form_output_char value = true.
Proof.
  exists (form_encode tokenId). split.
  - apply mirrorNodeAccountHasToken_trace.
  - apply form_encode_output.
Qed.

Lemma form_encode_safe (s : string) :
  string_forall form_safe_char s = true -> form_encode s = s.
Proof.
  induction s as [|c rest IH]; intros Hsafe; [reflexivity|].
  simpl in Hsafe. apply andb_true_iff in Hsafe. destruct Hsafe as [Hc Hrest].
  simpl. unfold form_safe_char in Hc. rewrite Hc, (IH Hrest). reflexivity.
Qed.

(** X2.  For a token id made of ASCII letters, digits and [* - . _] (the
    ids of the form shard.realm.num are such), the relationship lookup
    requests exactly
    [{base}/accounts/{account}/tokens?token.id={token}&limit=1], and that
    request is the only interaction of the lookup. *)
Theorem mirrorNodeAccountHasToken_request
    (w : World) (baseUrl accountId tokenId : string) :
  string_forall form_safe_char tokenId = true ->
  trace (mirrorNodeAccountHasToken w baseUrl accountId tokenId)
  = [HttpGet (baseUrl ++ "/accounts/" ++ accountId ++ "/tokens?token.id="
              ++ tokenId ++ "&limit=1")].
Proof.
  intros Hsafe.
  rewrite mirrorNodeAccountHasToken_trace. unfold relationship_url.
  rewrite (form_encode_safe _ Hsafe). reflexivity.
Qed.

Lemma mirrorNodeAccountHasToken_request_witness :
  trace (mirrorNodeAccountHasToken world_associated sample_base "0.0.1001" "0.0.731861")
  = [HttpGet "https://testnet.mirrornode.hedera.com/api/v1/accounts/0.0.1001/tokens?token.id=0.0.731861&limit=1"].
Proof.
  apply (mirrorNodeAccountHasToken_request world_associated sample_base
           "0.0.1001" "0.0.731861").
  reflexivity.
Defined.

(* ------------------------------------------------------------------ *)
(** ** The tables and the lookups through [fetchFromMirrorNode]        *)
(* ------------------------------------------------------------------ *)

(** X3.  The three tables configure the same networks: a network has a
    router exactly when it has a wrapped-HBAR token, exactly when it has a
    Mirror Node address, exactly when it is the test or the main network;
    and no configured value fails the truthiness test made on it. *)
Theorem tables_agree (ledger : LedgerId) :
  ((exists routerId, if_truthy (Map_get LedgerIdToRouterContractID ledger) = Some routerId)
   <-> ledger = TESTNET \/ ledger = MAINNET)
  /\ ((exists whbarId, if_truthy (Map_get LedgerIdToWHbarID ledger) = Some whbarId)
      <-> ledger = TESTNET \/ ledger = MAINNET)
  /\ ((exists baseUrl, if_truthy (Map_get LedgerIdToBaseUrl ledger) = Some baseUrl)
      <-> ledger = TESTNET \/ ledger = MAINNET).
Proof.
  destruct ledger; simpl; repeat split;
    try (intros [x Hx]; discriminate Hx);
    try (intros [H | H]; discriminate H);
    try (intros _; eauto);
    try (intros _; now right); try (intros _; now left).
Qed.

Lemma errorDetails_length (response : HttpResponse) :
  (String.length (errorDetails response) <= 201)%nat.
Proof.
  unfold errorDetails.
  destruct (errorBody response =? "")%string; simpl; [lia|].
  pose proof (slice0_length 200 (trim (http_text response))) as Hlen.
  unfold errorBody. lia.
Qed.

Lemma slice0_empty (n : nat) (s : string) :
  slice0 (S n) s = "" <-> s = "".
Proof.
  destruct s as [|c rest]; simpl; split; intros H; try reflexivity; discriminate.
Qed.

Lemma errorDetails_empty (response : HttpResponse) :
  errorDetails response = "" <-> trim (http_text response) = "".
Proof.
  unfold errorDetails, errorBody.
  destruct (slice0 200 (trim (http_text response)) =? "")%string eqn:Hempty.
  - apply String.eqb_eq in Hempty. apply slice0_empty in Hempty.
    split; intros _; [exact Hempty | reflexivity].
  - apply String.eqb_neq in Hempty. split; intros H; [discriminate|].
    elim Hempty. now apply slice0_empty.
Qed.

Lemma fetchFromMirrorNode_not_ok (w : World) (url : string) (response : HttpResponse) :
  world_fetch w url = Ok response ->
  http_ok response = false ->
  fetchFromMirrorNode w url
  = ([HttpGet url], Err (ThrownError (request_failed_message response))).
Proof.
  intros Hfetch Hok.
  unfold fetchFromMirrorNode, do_fetch, bind, emit, lift, throw.
  rewrite Hfetch. simpl. rewrite Hok. reflexivity.
Qed.

Lemma fetchFromMirrorNode_ok (w : World) (url : string) (response : HttpResponse) :
  world_fetch w url = Ok response ->
  http_ok response = true ->
  fetchFromMirrorNode w url = ([HttpGet url], http_json response).
Proof.
  intros Hfetch Hok.
  unfold fetchFromMirrorNode, do_fetch, bind, emit, lift, throw.
  rewrite Hfetch. simpl. rewrite Hok. simpl.
  destruct (http_json response); reflexivity.
Qed.

(** X4.  A response with a status outside 200 to 299 makes the account
    lookup it answers throw, whatever becomes of the other lookup: be it the
    answer to the relationship lookup or to the ceiling lookup, that lookup
    throws, after its one request and without reading the body as JSON, the
    message "Mirror Node request failed (status)." followed by a detail of at
    most 201 characters; the detail is empty exactly when the body is empty
    or white space only. *)
Theorem account_lookups_not_ok
    (w : World) (baseUrl accountId tokenId : string) (response : HttpResponse) :
  http_ok response = false ->
  (world_fetch w (relationship_url baseUrl accountId tokenId) = Ok response ->
   mirrorNodeAccountHasToken w baseUrl accountId tokenId
   = ([HttpGet (relationship_url baseUrl accountId tokenId)],
      Err (ThrownError ("Mirror Node request failed ("
                        ++ show_Z (http_status response) ++ ")."
                        ++ errorDetails response))))
  /\ (world_fetch w (account_url baseUrl accountId) = Ok response ->
      mirrorNodeAccountMaxAutoAssociations w baseUrl accountId
      = ([HttpGet (account_url baseUrl accountId)],
         Err (ThrownError ("Mirror Node request failed ("
                           ++ show_Z (http_status response) ++ ")."
                           ++ errorDetails response))))
  /\ (String.length (errorDetails response) <= 201)%nat
  /\ (errorDetails response = "" <-> trim (http_text response) = "").
Proof.
  intros Hok. split; [|split; [|split]].
  - intros Hfetch. unfold mirrorNodeAccountHasToken.
    change (baseUrl ++ "/accounts/" ++ accountId ++ "/tokens?"
            ++ URLSearchParams_toString [("token.id", tokenId); ("limit", "1")])%string
      with (relationship_url baseUrl accountId tokenId).
    rewrite (fetchFromMirrorNode_not_ok _ _ _ Hfetch Hok). reflexivity.
  - intros Hfetch. unfold mirrorNodeAccountMaxAutoAssociations.
    fold (account_url baseUrl accountId).
    rewrite (fetchFromMirrorNode_not_ok _ _ _ Hfetch Hok). reflexivity.
  - apply errorDetails_length.
  - apply errorDetails_empty.
Qed.

Lemma account_lookups_not_ok_witness :
  mirrorNodeAccountHasToken world_relationship_down sample_base "0.0.1001" "0.0.731861"
  = ([HttpGet (relationship_url sample_base "0.0.1001" "0.0.731861")],
     Err (ThrownError "Mirror Node request failed (404). Not Found"))
  /\ mirrorNodeAccountMaxAutoAssociations world_relationship_down sample_base "0.0.1001"
     = ([HttpGet (account_url sample_base "0.0.1001")], Ok 0)
  /\ mirrorNodeAccountMaxAutoAssociations world_down sample_base "0.0.1001"
     = ([HttpGet (account_url sample_base "0.0.1001")],
        Err (ThrownError "Mirror Node request failed (404). Not Found")).
Proof.
  split; [|split].
  - destruct (account_lookups_not_ok world_relationship_down sample_base "0.0.1001"
                "0.0.731861" response_404 eq_refl) as [Hrelationship _].
    exact (Hrelationship eq_refl).
  - reflexivity.
  - destruct (account_lookups_not_ok world_down sample_base "0.0.1001"
                "0.0.731861" response_404 eq_refl) as [_ [Hceiling _]].
    exact (Hceiling eq_refl).
Defined.

(** X5.  For a successful response whose body is not [null], the ceiling
    lookup never throws: after its one request it returns the
    [max_automatic_token_associations] of the body when that is a JSON
    number, and 0 in every other case (no such member, [null], a string, a
    boolean, an array, an object, or a body that is no object). *)
Theorem mirrorNodeAccountMaxAutoAssociations_spec
    (w : World) (baseUrl accountId : string) (response : HttpResponse) (data : json) :
  world_fetch w (account_url baseUrl accountId) = Ok response ->
  http_ok response = true ->
  http_json response = Ok data ->
  data <> JNull ->
  exists value n,
    get_prop data "max_automatic_token_associations" = Ok value
    /\ mirrorNodeAccountMaxAutoAssociations w baseUrl accountId
       = ([HttpGet (account_url baseUrl accountId)], Ok n)
    /\ (forall m, value = Some (JNum m) -> n = m)
    /\ ((forall m, value <> Some (JNum m)) -> n = 0).
Proof.
  intros Hfetch Hok Hjson Hdata.
  assert (Hprop : exists value,
             get_prop data "max_automatic_token_associations" = Ok value).
  { destruct data; try (eexists; reflexivity). now elim Hdata. }
  destruct Hprop as [value Hvalue].
  exists value.
  exists (match value with Some (JNum m) => m | _ => 0 end).
  split; [exact Hvalue|]. split; [|split].
  - unfold mirrorNodeAccountMaxAutoAssociations. fold (account_url baseUrl accountId).
    rewrite (fetchFromMirrorNode_ok _ _ _ Hfetch Hok), Hjson.
    unfold bind, lift, ret. rewrite Hvalue. reflexivity.
  - intros m ->. reflexivity.
  - intros Hnot. destruct value as [[| | m | | |]|]; try reflexivity.
    now elim (Hnot m).
Qed.

Lemma mirrorNodeAccountMaxAutoAssociations_spec_witness :
  mirrorNodeAccountMaxAutoAssociations world_string_ceiling sample_base "0.0.1001"
  = ([HttpGet (account_url sample_base "0.0.1001")], Ok 0)
  /\ mirrorNodeAccountMaxAutoAssociations world_unlimited sample_base "0.0.1001"
     = ([HttpGet (account_url sample_base "0.0.1001")], Ok (-1)).
Proof.
  split.
  - destruct (mirrorNodeAccountMaxAutoAssociations_spec world_string_ceiling
                sample_base "0.0.1001"
                (response_200 (JObj [("max_automatic_token_associations", JStr "-1")]))
                (JObj [("max_automatic_token_associations", JStr "-1")])
                eq_refl eq_refl eq_refl)
      as [value [n [Hvalue [Hrun [_ Hzero]]]]]; [discriminate|].
    rewrite Hrun. rewrite Hzero; [reflexivity|].
    intros m Hm. rewrite Hm in Hvalue. discriminate Hvalue.
  - destruct (mirrorNodeAccountMaxAutoAssociations_spec world_unlimited
                sample_base "0.0.1001" (response_200 (account_body (-1)))
                (account_body (-1)) eq_refl eq_refl eq_refl)
      as [value [n [Hvalue [Hrun [Hnum _]]]]]; [discriminate|].
    rewrite Hrun. rewrite (Hnum (-1)); [reflexivity|].
    simpl in Hvalue. now inversion Hvalue.
Defined.

(* ------------------------------------------------------------------ *)
(** ** Every run of the association guard                              *)
(* ------------------------------------------------------------------ *)

Section GuardRuns.

Variable w : World.
Variable client : Client.
Variable context : Context.
Variables accountId tokenId : string.

Local Abbreviation run := (ensureTokenAssociation w client context accountId tokenId).
Local Abbreviation association := (association_transaction accountId tokenId).

(** Without a network, or on one without a Mirror Node, nothing happens. *)
Lemma ensureTokenAssociation_no_base :
  (ledgerId client = None
   \/ exists ledger, ledgerId client = Some ledger
                     /\ Map_get LedgerIdToBaseUrl ledger = None) ->
  trace run = [] /\ exists e, result run = Err e.
Proof.
  unfold ensureTokenAssociation, requireClientLedger.
  intros [Hnone | [ledger [Hsome Hbase]]].
  - rewrite Hnone. split; [reflexivity | eexists; reflexivity].
  - rewrite Hsome. unfold lift. rewrite bind_Ok, Hbase.
    split; [reflexivity | eexists; reflexivity].
Qed.

Variable ledger : LedgerId.
Variable baseUrl : string.
Hypothesis client_ledger : ledgerId client = Some ledger.
Hypothesis ledger_base : Map_get LedgerIdToBaseUrl ledger = Some baseUrl.

Local Abbreviation lookups := (guard_lookups baseUrl accountId tokenId).

(** The guard as the join of its two lookups and what follows. *)
Lemma ensureTokenAssociation_join :
  exists continuation,
    run = bind (promise_all2 (world_first_fails_first w)
                  ([HttpGet (relationship_url baseUrl accountId tokenId)],
                   result (mirrorNodeAccountHasToken w baseUrl accountId tokenId))
                  ([HttpGet (account_url baseUrl accountId)],
                   result (mirrorNodeAccountMaxAutoAssociations w baseUrl accountId)))
            continuation.
Proof.
  eexists.
  unfold ensureTokenAssociation, requireClientLedger.
  rewrite client_ledger. unfold lift at 1. rewrite bind_Ok.
  rewrite (supported_base_url _ _ ledger_base).
  rewrite (M_eta (mirrorNodeAccountHasToken w baseUrl accountId tokenId)) at 1.
  rewrite (M_eta (mirrorNodeAccountMaxAutoAssociations w baseUrl accountId)) at 1.
  rewrite mirrorNodeAccountHasToken_trace, mirrorNodeAccountMaxAutoAssociations_trace.
  reflexivity.
Qed.

(** A failed lookup ends the guard after the two requests. *)
Lemma ensureTokenAssociation_lookup_threw :
  (exists e, result (mirrorNodeAccountHasToken w baseUrl accountId tokenId) = Err e)
  \/ (exists e, result (mirrorNodeAccountMaxAutoAssociations w baseUrl accountId) = Err e) ->
  exists e,
    run = (lookups, Err e)
    /\ (result (mirrorNodeAccountHasToken w baseUrl accountId tokenId) = Err e
        \/ result (mirrorNodeAccountMaxAutoAssociations w baseUrl accountId) = Err e).
Proof.
  intros Hfailed.
  destruct ensureTokenAssociation_join as [continuation Hrun].
  rewrite Hrun. clear Hrun.
  destruct (result (mirrorNodeAccountHasToken w baseUrl accountId tokenId))
    as [b|e1];
    destruct (result (mirrorNodeAccountMaxAutoAssociations w baseUrl accountId))
      as [n|e2].
  - destruct Hfailed as [[e He] | [e He]]; discriminate He.
  - exists e2. split; [reflexivity | now right].
  - exists e1. split; [reflexivity | now left].
  - destruct (world_first_fails_first w) eqn:Hfirst.
    + exists e1. split; [reflexivity | now left].
    + exists e2. split; [reflexivity | now right].
Qed.

(** The interactions of a run on a network with a Mirror Node: the two
    lookups, then either nothing or the association, configured and handed
    over, and that only when the mode is not RETURN_BYTES. *)
Lemma ensureTokenAssociation_supported_trace :
  trace run = lookups
  \/ (is_RETURN_BYTES (mode context) = false
      /\ trace run = (lookups ++ [SdkBuild association; HandleTransaction association])%list).
Proof.
  destruct (result (mirrorNodeAccountHasToken w baseUrl accountId tokenId))
    as [b|e1] eqn:Hhas.
  2:{ left. destruct ensureTokenAssociation_lookup_threw as [e [Hrun _]].
      - left. now exists e1.
      - rewrite Hrun. reflexivity. }
  destruct (result (mirrorNodeAccountMaxAutoAssociations w baseUrl accountId))
    as [n|e2] eqn:Hmax.
  2:{ left. destruct ensureTokenAssociation_lookup_threw as [e [Hrun _]].
      - right. now exists e2.
      - rewrite Hrun. reflexivity. }
  rewrite (ensureTokenAssociation_after_lookups w client context accountId tokenId
             ledger baseUrl client_ledger ledger_base b n Hhas Hmax).
  destruct (b || (n =? -1)) eqn:Hdecision.
  { left. unfold bind. rewrite Hdecision. reflexivity. }
  destruct (is_RETURN_BYTES (mode context)) eqn:Hmode.
  { left. unfold bind. rewrite Hdecision. reflexivity. }
  destruct (world_sdk_rejects w association) as [e|] eqn:Hrejects.
  { left. unfold bind at 1. rewrite Hdecision.
    unfold build. rewrite Hrejects. reflexivity. }
  right. split; [reflexivity|].
  unfold bind at 1. rewrite Hdecision.
  unfold build, handle. rewrite Hrejects.
  unfold bind, emit, lift, ret, throw, trace.
  destruct (world_handleTransaction w association client context
              (Some (association_message tokenId accountId))) as [[raw hm|bytes]|e];
    simpl; try reflexivity.
  destruct (negb (status raw =? "SUCCESS")%string); reflexivity.
Qed.

End GuardRuns.

(** The interactions of any run of the guard. *)
Lemma ensureTokenAssociation_trace_cases
    (w : World) (client : Client) (context : Context) (accountId tokenId : string) :
  trace (ensureTokenAssociation w client context accountId tokenId) = []
  \/ (exists baseUrl,
        trace (ensureTokenAssociation w client context accountId tokenId)
        = guard_lookups baseUrl accountId tokenId)
  \/ (exists baseUrl,
        is_RETURN_BYTES (mode context) = false
        /\ trace (ensureTokenAssociation w client context accountId tokenId)
           = (guard_lookups baseUrl accountId tokenId
              ++ [ SdkBuild (association_transaction accountId tokenId);
                   HandleTransaction (association_transaction accountId tokenId) ])%list).
Proof.
  destruct (ledgerId client) as [ledger|] eqn:Hledger.
  - destruct (Map_get LedgerIdToBaseUrl ledger) as [baseUrl|] eqn:Hbase.
    + destruct (ensureTokenAssociation_supported_trace w client context accountId
                  tokenId ledger baseUrl Hledger Hbase) as [Htrace | [Hmode Htrace]].
      * right. left. now exists baseUrl.
      * right. right. now exists baseUrl.
    + left. apply ensureTokenAssociation_no_base. right. now exists ledger.
  - left. apply ensureTokenAssociation_no_base. now left.
Qed.

(** X7.  In the mode RETURN_BYTES the guard never configures a transaction
    and never hands one to [handleTransaction], whatever the client, the
    account, the token and the answers of the Mirror Node. *)
Theorem ensureTokenAssociation_return_bytes_no_transaction
    (w : World) (client : Client) (context : Context) (accountId tokenId : string) :
  mode context = Some RETURN_BYTES ->
  no_transaction (trace (ensureTokenAssociation w client context accountId tokenId)) = true
  /\ handed (trace (ensureTokenAssociation w client context accountId tokenId)) = [].
Proof.
  intros Hmode.
  destruct (ensureTokenAssociation_trace_cases w client context accountId tokenId)
    as [Htrace | [[baseUrl Htrace] | [baseUrl [Hbytes Htrace]]]].
  - rewrite Htrace. split; reflexivity.
  - rewrite Htrace. split; reflexivity.
  - rewrite Hmode in Hbytes. discriminate Hbytes.
Qed.

Lemma ensureTokenAssociation_return_bytes_no_transaction_witness :
  no_transaction
    (trace (ensureTokenAssociation (world_not_associated "SUCCESS") testnet_client
              return_bytes_context "0.0.1001" "0.0.731861")) = true
  /\ handed
       (trace (ensureTokenAssociation (world_not_associated "SUCCESS") testnet_client
                 return_bytes_context "0.0.1001" "0.0.731861")) = [].
Proof.
  apply (ensureTokenAssociation_return_bytes_no_transaction
           (world_not_associated "SUCCESS") testnet_client return_bytes_context
           "0.0.1001" "0.0.731861").
  reflexivity.
Defined.

(** X8.  In any run the guard hands at most one transaction to
    [handleTransaction], and the only transaction it ever configures or
    hands over is the association of the one token with the account, with
    the memo "Auto-associate for SaucerSwap". *)
Theorem ensureTokenAssociation_only_association
    (w : World) (client : Client) (context : Context) (accountId tokenId : string) :
  (handed (trace (ensureTokenAssociation w client context accountId tokenId)) = []
   \/ handed (trace (ensureTokenAssociation w client context accountId tokenId))
      = [TokenAssociateTransaction accountId [tokenId] "Auto-associate for SaucerSwap"])
  /\ (forall tx,
        In (SdkBuild tx) (trace (ensureTokenAssociation w client context accountId tokenId))
        \/ In (HandleTransaction tx)
             (trace (ensureTokenAssociation w client context accountId tokenId)) ->
        tx = TokenAssociateTransaction accountId [tokenId] "Auto-associate for SaucerSwap").
Proof.
  destruct (ensureTokenAssociation_trace_cases w client context accountId tokenId)
    as [Htrace | [[baseUrl Htrace] | [baseUrl [_ Htrace]]]]; rewrite Htrace.
  - split; [now left|]. intros tx [[] | []].
  - split; [now left|]. simpl.
    intros tx [[H | [H | []]] | [H | [H | []]]]; discriminate H.
  - split; [now right|]. simpl.
    intros tx [[H | [H | [H | [H | []]]]] | [H | [H | [H | [H | []]]]]];
      try discriminate H; now inversion H.
Qed.

(** X9.  With both lookups answering, the guard returns normally in
    exactly three cases: the account holds the token; its ceiling is -1; or
    the mode is not RETURN_BYTES, the SDK accepts the association and
    [handleTransaction] answers with an executed result of status SUCCESS.
    In every other case it throws. *)
Theorem ensureTokenAssociation_returns_iff
    (w : World) (client : Client) (context : Context) (accountId tokenId : string)
    (ledger : LedgerId) (baseUrl : string)
    (isAssociated : bool) (maxAutoAssociations : Z) :
  ledgerId client = Some ledger ->
  Map_get LedgerIdToBaseUrl ledger = Some baseUrl ->
  result (mirrorNodeAccountHasToken w baseUrl accountId tokenId) = Ok isAssociated ->
  result (mirrorNodeAccountMaxAutoAssociations w baseUrl accountId)
  = Ok maxAutoAssociations ->
  (result (ensureTokenAssociation w client context accountId tokenId) = Ok tt
   <-> isAssociated = true
       \/ maxAutoAssociations = -1
       \/ (mode context <> Some RETURN_BYTES
           /\ world_sdk_rejects w (association_transaction accountId tokenId) = None
           /\ exists raw message,
                world_handleTransaction w (association_transaction accountId tokenId)
                  client context (Some (association_message tokenId accountId))
                = Ok (Executed raw message)
                /\ status raw = "SUCCESS")).
Proof.
  intros Hledger Hbase Hhas Hmax.
  rewrite (ensureTokenAssociation_after_lookups w client context accountId tokenId
             ledger baseUrl Hledger Hbase isAssociated maxAutoAssociations Hhas Hmax).
  unfold bind at 1.
  destruct isAssociated.
  { simpl. split; [intros _; now left | reflexivity]. }
  destruct (Z.eqb_spec maxAutoAssociations (-1)) as [Hunlimited | Hlimited].
  { simpl. split; [intros _; right; now left | reflexivity]. }
  simpl orb. cbv iota.
  destruct (mode context) as [[|]|] eqn:Hmode; simpl is_RETURN_BYTES; cbv iota.
  2:{ split; [discriminate|].
      intros [H | [H | [H _]]]; [discriminate | contradiction | now elim H]. }
  all: unfold build;
    destruct (world_sdk_rejects w (association_transaction accountId tokenId))
      as [e|] eqn:Hrejects;
    [ split; [discriminate|];
      intros [H | [H | [_ [H _]]]]; [discriminate | contradiction | discriminate]
    | ];
    unfold handle, bind, emit, lift, ret, throw, result;
    destruct (world_handleTransaction w (association_transaction accountId tokenId)
                client context (Some (association_message tokenId accountId)))
      as [[raw hm|bytes]|e] eqn:Hhandle; simpl;
    [ destruct (String.eqb_spec (status raw) "SUCCESS") as [Hsuccess | Hfailure]; simpl;
      [ split; [intros _|reflexivity];
        right; right; split; [discriminate|]; split; [reflexivity|];
        exists raw, hm; split; [reflexivity | exact Hsuccess]
      | split; [discriminate|];
        intros [H | [H | [_ [_ [raw' [hm' [Heq Hs]]]]]]];
        [discriminate | contradiction | inversion Heq; subst; contradiction] ]
    | split; [discriminate|];
      intros [H | [H | [_ [_ [raw' [hm' [Heq _]]]]]]];
      [discriminate | contradiction | discriminate]
    | split; [discriminate|];
      intros [H | [H | [_ [_ [raw' [hm' [Heq _]]]]]]];
      [discriminate | contradiction | discriminate] ].
Qed.

Lemma ensureTokenAssociation_returns_iff_witness :
  result (ensureTokenAssociation (world_not_associated "SUCCESS") testnet_client
            autonomous_context "0.0.1001" "0.0.731861") = Ok tt
  /\ result (ensureTokenAssociation (world_not_associated "INVALID_SIGNATURE")
               testnet_client autonomous_context "0.0.1001" "0.0.731861") <> Ok tt.
Proof.
  split.
  - apply (ensureTokenAssociation_returns_iff (world_not_associated "SUCCESS")
             testnet_client autonomous_context "0.0.1001" "0.0.731861" TESTNET
             sample_base false 0 eq_refl eq_refl eq_refl eq_refl).
    right. right. split; [discriminate|]. split; [reflexivity|].
    exists (sample_receipt "SUCCESS"),
      "Associated token 0.0.731861 with account 0.0.1001. Status: SUCCESS.".
    split; reflexivity.
  - intros Hreturns.
    apply (ensureTokenAssociation_returns_iff (world_not_associated "INVALID_SIGNATURE")
             testnet_client autonomous_context "0.0.1001" "0.0.731861" TESTNET
             sample_base false 0 eq_refl eq_refl eq_refl eq_refl) in Hreturns.
    destruct Hreturns as [H | [H | [_ [_ [raw [message [Hhandle Hstatus]]]]]]];
      [discriminate H | discriminate H |].
    inversion Hhandle. subst raw. discriminate Hstatus.
Defined.

(** X10.  When the association is needed, the mode is not RETURN_BYTES and
    [handleTransaction] nevertheless answers with unsigned bytes, the guard
    throws "Unexpected RETURN_BYTES result while associating token."; the
    association has by then been configured and handed over. *)
Theorem ensureTokenAssociation_unexpected_bytes
    (w : World) (client : Client) (context : Context) (accountId tokenId : string)
    (ledger : LedgerId) (baseUrl : string) (maxAutoAssociations : Z) (bytes : list Z) :
  ledgerId client = Some ledger ->
  Map_get LedgerIdToBaseUrl ledger = Some baseUrl ->
  result (mirrorNodeAccountHasToken w baseUrl accountId tokenId) = Ok false ->
  result (mirrorNodeAccountMaxAutoAssociations w baseUrl accountId)
  = Ok maxAutoAssociations ->
  maxAutoAssociations <> -1 ->
  mode context <> Some RETURN_BYTES ->
  world_sdk_rejects w (association_transaction accountId tokenId) = None ->
  world_handleTransaction w (association_transaction accountId tokenId) client context
    (Some (association_message tokenId accountId)) = Ok (UnsignedBytes bytes) ->
  ensureTokenAssociation w client context accountId tokenId
  = ((guard_lookups baseUrl accountId tokenId
      ++ [ SdkBuild (association_transaction accountId tokenId);
           HandleTransaction (association_transaction accountId tokenId) ])%list,
     Err (ThrownError "Unexpected RETURN_BYTES result while associating token.")).
Proof.
  intros Hledger Hbase Hhas Hmax Hceiling Hmode Hrejects Hhandle.
  rewrite (ensureTokenAssociation_after_lookups w client context accountId tokenId
             ledger baseUrl Hledger Hbase false maxAutoAssociations Hhas Hmax).
  assert (Hbytes : is_RETURN_BYTES (mode context) = false).
  { destruct (mode context) as [[|]|]; try reflexivity. now elim Hmode. }
  apply Z.eqb_neq in Hceiling.
  unfold bind at 1. rewrite Hceiling, Hbytes. simpl orb. cbv iota.
  unfold build, handle. rewrite Hrejects.
  unfold bind, emit, lift, ret, throw. rewrite Hhandle. reflexivity.
Qed.

Lemma ensureTokenAssociation_unexpected_bytes_witness :
  ensureTokenAssociation world_bytes_handler testnet_client autonomous_context
    "0.0.1001" "0.0.731861"
  = ((sample_lookups
      ++ [SdkBuild sample_association; HandleTransaction sample_association])%list,
     Err (ThrownError "Unexpected RETURN_BYTES result while associating token.")).
Proof.
  apply (ensureTokenAssociation_unexpected_bytes world_bytes_handler testnet_client
           autonomous_context "0.0.1001" "0.0.731861" TESTNET sample_base 0
           [10; 2; 24; 1]);
    [reflexivity | reflexivity | reflexivity | reflexivity | lia | discriminate
    | reflexivity | reflexivity].
Defined.

(** X6.  When one of the two lookups fails, the guard throws what a failed
    lookup threw; both requests have been issued, the second also when the
    first is the one that fails, and nothing else has happened. *)
Theorem ensureTokenAssociation_lookup_failed
    (w : World) (client : Client) (context : Context) (accountId tokenId : string)
    (ledger : LedgerId) (baseUrl : string) :
  ledgerId client = Some ledger ->
  Map_get LedgerIdToBaseUrl ledger = Some baseUrl ->
  (exists e, result (mirrorNodeAccountHasToken w baseUrl accountId tokenId) = Err e)
  \/ (exists e, result (mirrorNodeAccountMaxAutoAssociations w baseUrl accountId) = Err e) ->
  exists e,
    ensureTokenAssociation w client context accountId tokenId
    = ([ HttpGet (relationship_url baseUrl accountId tokenId);
         HttpGet (account_url baseUrl accountId) ], Err e)
    /\ (result (mirrorNodeAccountHasToken w baseUrl accountId tokenId) = Err e
        \/ result (mirrorNodeAccountMaxAutoAssociations w baseUrl accountId) = Err e).
Proof.
  intros Hledger Hbase Hfailed.
  exact (ensureTokenAssociation_lookup_threw w client context accountId tokenId
           ledger baseUrl Hledger Hbase Hfailed).
Qed.

Lemma ensureTokenAssociation_lookup_failed_witness :
  ensureTokenAssociation world_down testnet_client autonomous_context
    "0.0.1001" "0.0.731861"
  = (sample_lookups, Err (ThrownError "Mirror Node request failed (404). Not Found")).
Proof.
  destruct (ensureTokenAssociation_lookup_failed world_down testnet_client
              autonomous_context "0.0.1001" "0.0.731861" TESTNET sample_base
              eq_refl eq_refl) as [e [Hrun [He | He]]].
  - left. eexists. reflexivity.
  - rewrite Hrun. vm_compute in He. inversion He. reflexivity.
  - rewrite Hrun. vm_compute in He. inversion He. reflexivity.
Defined.

(* ------------------------------------------------------------------ *)
(** ** Every run of the tool                                           *)
(* ------------------------------------------------------------------ *)

(** Lines 79 to 103 go one of the five ways of [swap_steps]. *)
Lemma swap_steps_complete
    (w : World) (client : Client) (context : Context) (params : SwapHbarForTokenParams)
    (ledger : LedgerId) (routerId recipient : string) :
  swap_steps w client context params ledger routerId recipient
    (trace (path <- resolveSwapPath w ledger (tokenId params) ;;
            let deadline := world_Date_now w / 1000 + DEFAULT_DEADLINE_SECONDS in
            recipientAccountEvmAddress <-
              populateAccountEvmAddress w recipient client ;;
            tx <- build w (swap_transaction routerId (hbarAmount params) path
                             recipientAccountEvmAddress deadline) ;;
            result <- handle w tx client context None ;;
            ret (HandlerOutput result)))
    (result (path <- resolveSwapPath w ledger (tokenId params) ;;
             let deadline := world_Date_now w / 1000 + DEFAULT_DEADLINE_SECONDS in
             recipientAccountEvmAddress <-
               populateAccountEvmAddress w recipient client ;;
             tx <- build w (swap_transaction routerId (hbarAmount params) path
                              recipientAccountEvmAddress deadline) ;;
             result <- handle w tx client context None ;;
             ret (HandlerOutput result))).
Proof.
  rewrite (M_eta (resolveSwapPath w ledger (tokenId params))).
  rewrite resolveSwapPath_trace.
  destruct (result (resolveSwapPath w ledger (tokenId params))) as [path|e] eqn:Hpath.
  2:{ apply steps_path_failed. exact Hpath. }
  rewrite bind_Ok. unfold populateAccountEvmAddress.
  destruct (world_AccountId_rejects w recipient) as [e|] eqn:Haccount.
  { eapply steps_account_rejected; eassumption. }
  destruct (world_populateAccountEvmAddress w recipient client) as [address|e]
    eqn:Hpopulate.
  2:{ unfold bind, emit, lift, trace, result. simpl.
      eapply steps_populate_failed; eassumption. }
  unfold build.
  destruct (world_sdk_rejects w
              (swap_transaction routerId (hbarAmount params) path address
                 (world_Date_now w / 1000 + DEFAULT_DEADLINE_SECONDS)))
    as [e|] eqn:Hrejects.
  { unfold bind, emit, lift, throw, trace, result. simpl. rewrite Hrejects. simpl.
    eapply steps_build_failed; eassumption. }
  pose proof (steps_handled w client context params ledger routerId recipient
                path address Hpath Haccount Hpopulate Hrejects) as Hrun.
  unfold bind, emit, lift, throw, ret, handle, trace, result. simpl.
  rewrite Hrejects. simpl.
  simpl in Hrun.
  destruct (world_handleTransaction w
              (swap_transaction routerId (hbarAmount params) path address
                 (world_Date_now w / 1000 + DEFAULT_DEADLINE_SECONDS))
              client context None); exact Hrun.
Qed.

Lemma bind_run {A B} (t : list Event) (a : A) (f : A -> M B) :
  bind (t, Ok a) f = ((t ++ trace (f a))%list, result (f a)).
Proof. unfold bind, trace, result. destruct (f a); reflexivity. Qed.

Lemma router_has_base (ledger : LedgerId) (routerId : string) :
  Map_get LedgerIdToRouterContractID ledger = Some routerId ->
  exists baseUrl, Map_get LedgerIdToBaseUrl ledger = Some baseUrl.
Proof. destruct ledger; simpl; intros H; try discriminate H; eexists; reflexivity. Qed.

(** The [try] block goes one of the ways of [execute_try_run]. *)
Lemma execute_try_runs
    (w : World) (client : Client) (context : Context) (params : SwapHbarForTokenParams) :
  execute_try_run w client context params
    (trace (execute_try w client context params))
    (result (execute_try w client context params)).
Proof.
  destruct (ledgerId client) as [ledger|] eqn:Hledger.
  2:{ unfold execute_try, requireClientLedger. rewrite Hledger.
      apply run_no_ledger. exact Hledger. }
  destruct (Map_get LedgerIdToRouterContractID ledger) as [routerId|] eqn:Hrouter.
  2:{ rewrite (execute_unsupported w client context params ledger Hledger Hrouter).
      eapply run_unsupported; eassumption. }
  destruct (router_has_base ledger routerId Hrouter) as [baseUrl Hbase].
  destruct (result (fetchTokenInfoFromMirrorNode w baseUrl (tokenId params)))
    as [tokenInfo|e] eqn:Hinfo.
  2:{ assert (Hrun : execute_try w client context params
                     = ([HttpGet (token_url baseUrl (tokenId params))], Err e)).
      { unfold execute_try, requireClientLedger. rewrite Hledger.
        unfold lift at 1. rewrite bind_Ok.
        rewrite (supported_router _ _ Hrouter), (supported_base_url _ _ Hbase).
        rewrite (M_eta (fetchTokenInfoFromMirrorNode w baseUrl (tokenId params))).
        rewrite fetchTokenInfoFromMirrorNode_trace, Hinfo. reflexivity. }
      rewrite Hrun. eapply run_token_failed; eassumption. }
  pose proof (execute_try_after_token_lookup w client context params ledger routerId
                baseUrl Hledger Hrouter Hbase tokenInfo Hinfo) as Hrun.
  unfold bind at 1 in Hrun.
  change (truthy (token_type tokenInfo)
          && negb (strict_eq_string (token_type tokenInfo) "FUNGIBLE_COMMON"))
    with (declared_not_fungible tokenInfo) in Hrun.
  destruct (declared_not_fungible tokenInfo) eqn:Htype.
  { rewrite Hrun. eapply run_not_fungible; eassumption. }
  unfold lift at 1 in Hrun.
  destruct (world_resolveAccount w (recipientAccountId params) context client)
    as [recipient|e] eqn:Hrecipient.
  2:{ rewrite Hrun. eapply run_no_recipient; eassumption. }
  rewrite bind_Ok in Hrun.
  rewrite (M_eta (ensureTokenAssociation w client context recipient (tokenId params)))
    in Hrun.
  destruct (result (ensureTokenAssociation w client context recipient (tokenId params)))
    as [[]|e] eqn:Hguard.
  2:{ rewrite Hrun. unfold bind. cbn [trace result fst snd app].
      eapply run_guard_failed; eassumption. }
  rewrite bind_run in Hrun. rewrite Hrun. cbn [trace result fst snd app].
  eapply run_swap; try eassumption.
  apply swap_steps_complete.
Qed.

Lemma handed_app (t u : list Event) : handed (t ++ u) = (handed t ++ handed u)%list.
Proof.
  induction t as [|ev t IH]; [reflexivity|].
  destruct ev; simpl; rewrite IH; reflexivity.
Qed.

Lemma console_errors_app (t u : list Event) :
  console_errors (t ++ u) = (console_errors t ++ console_errors u)%list.
Proof.
  induction t as [|ev t IH]; [reflexivity|].
  destruct ev; simpl; rewrite IH; reflexivity.
Qed.

Lemma In_handed (tx : Transaction) (t : list Event) :
  In tx (handed t) <-> In (HandleTransaction tx) t.
Proof.
  induction t as [|ev t IH]; [reflexivity|].
  destruct ev; simpl; rewrite IH; split; intros H;
    try (now right); try (destruct H as [H | H]; [discriminate H | exact H]).
  - destruct H as [H | H]; [left; now subst | now right].
  - destruct H as [H | H]; [left; now inversion H | now right].
Qed.

(** [execute] in terms of its [try] block. *)
Lemma execute_cases
    (w : World) (client : Client) (context : Context) (params : SwapHbarForTokenParams) :
  match result (execute_try w client context params) with
  | Ok r =>
      execute w client context params
      = (trace (execute_try w client context params), Ok r)
  | Err e =>
      execute w client context params
      = ((trace (execute_try w client context params)
          ++ [ConsoleError (reported_message e)])%list,
         Ok (ErrorResult (reported_message e) (reported_message e)))
  end.
Proof.
  unfold execute, try_catch.
  destruct (execute_try w client context params) as [t [r|e]]; simpl; [reflexivity|].
  destruct e; reflexivity.
Qed.

Lemma execute_handed
    (w : World) (client : Client) (context : Context) (params : SwapHbarForTokenParams) :
  handed (trace (execute w client context params))
  = handed (trace (execute_try w client context params)).
Proof.
  pose proof (execute_cases w client context params) as Hcases.
  destruct (result (execute_try w client context params)); rewrite Hcases.
  - reflexivity.
  - unfold trace at 1. simpl fst. rewrite handed_app. simpl. apply app_nil_r.
Qed.

Lemma resolveSwapPath_pair (w : World) (ledger : LedgerId) (tokenId : string)
    (path : list string) :
  result (resolveSwapPath w ledger tokenId) = Ok path ->
  exists first second, path = [first; second].
Proof.
  unfold resolveSwapPath.
  destruct (if_truthy (Map_get LedgerIdToWHbarID ledger)) as [whbarId|];
    [|discriminate].
  unfold bind, lift, ret, result.
  destruct (world_TokenId_toEvmAddress w whbarId) as [first|]; [|discriminate].
  destruct (world_TokenId_toEvmAddress w tokenId) as [second|]; [|discriminate].
  simpl. intros H. inversion H. now exists first, second.
Qed.

(** What the guard hands over. *)
Lemma ensureTokenAssociation_handed
    (w : World) (client : Client) (context : Context) (accountId tokenId : string) :
  handed (trace (ensureTokenAssociation w client context accountId tokenId)) = []
  \/ (is_RETURN_BYTES (mode context) = false
      /\ handed (trace (ensureTokenAssociation w client context accountId tokenId))
         = [association_transaction accountId tokenId]).
Proof.
  destruct (ensureTokenAssociation_trace_cases w client context accountId tokenId)
    as [Htrace | [[baseUrl Htrace] | [baseUrl [Hmode Htrace]]]]; rewrite Htrace.
  - now left.
  - now left.
  - right. split; [exact Hmode | reflexivity].
Qed.

Lemma ensureTokenAssociation_console
    (w : World) (client : Client) (context : Context) (accountId tokenId : string) :
  console_errors (trace (ensureTokenAssociation w client context accountId tokenId)) = [].
Proof.
  destruct (ensureTokenAssociation_trace_cases w client context accountId tokenId)
    as [Htrace | [[baseUrl Htrace] | [baseUrl [Hmode Htrace]]]]; rewrite Htrace;
    reflexivity.
Qed.

(** The transactions handed over in a run of the tool: none; the
    association alone; the swap alone; or the association, then the swap.
    A swap is handed over only after the type test passed and the guard
    returned, an association only outside the mode RETURN_BYTES. *)
Lemma execute_handed_cases
    (w : World) (client : Client) (context : Context) (params : SwapHbarForTokenParams) :
  handed (trace (execute w client context params)) = []
  \/ (exists recipient,
        world_resolveAccount w (recipientAccountId params) context client = Ok recipient
        /\ is_RETURN_BYTES (mode context) = false
        /\ handed (trace (execute w client context params))
           = [association_transaction recipient (tokenId params)])
  \/ (exists ledger routerId baseUrl tokenInfo recipient tx,
        ledgerId client = Some ledger
        /\ Map_get LedgerIdToRouterContractID ledger = Some routerId
        /\ Map_get LedgerIdToBaseUrl ledger = Some baseUrl
        /\ result (fetchTokenInfoFromMirrorNode w baseUrl (tokenId params)) = Ok tokenInfo
        /\ declared_not_fungible tokenInfo = false
        /\ world_resolveAccount w (recipientAccountId params) context client = Ok recipient
        /\ result (ensureTokenAssociation w client context recipient (tokenId params))
           = Ok tt
        /\ is_swap_of w routerId params tx
        /\ (handed (trace (execute w client context params)) = [tx]
            \/ (is_RETURN_BYTES (mode context) = false
                /\ handed (trace (execute w client context params))
                   = [association_transaction recipient (tokenId params); tx]))).
Proof.
  rewrite execute_handed.
  pose proof (execute_try_runs w client context params) as Hrun.
  inversion Hrun as
    [ Hledger Ht Hr
    | ledger Hledger Hrouter Ht Hr
    | ledger routerId baseUrl e Hledger Hrouter Hbase Hinfo Ht Hr
    | ledger routerId baseUrl tokenInfo Hledger Hrouter Hbase Hinfo Htype Ht Hr
    | ledger routerId baseUrl tokenInfo e Hledger Hrouter Hbase Hinfo Htype Hrecipient Ht Hr
    | ledger routerId baseUrl tokenInfo recipient e Hledger Hrouter Hbase Hinfo Htype
        Hrecipient Hguard Ht Hr
    | ledger routerId baseUrl tokenInfo recipient steps r Hledger Hrouter Hbase Hinfo
        Htype Hrecipient Hguard Hsteps Ht Hr ];
    try (left; reflexivity).
  - (* the guard failed *)
    simpl handed.
    destruct (ensureTokenAssociation_handed w client context recipient (tokenId params))
      as [Hnone | [Hmode Hone]].
    + left. exact Hnone.
    + right. left. exists recipient. repeat split; assumption.
  - (* the guard returned *)
    simpl handed. rewrite handed_app.
    inversion Hsteps as
      [ e Hpath Hs Hres
      | path e Hpath Haccount Hs Hres
      | path e Hpath Haccount Hpopulate Hs Hres
      | path address e Hpath Haccount Hpopulate Hrejects Hs Hres
      | path address Hpath Haccount Hpopulate tx Hrejects Hs Hres ];
      simpl handed; rewrite ?app_nil_r.
    1-4: destruct (ensureTokenAssociation_handed w client context recipient
                     (tokenId params)) as [Hnone | [Hmode Hone]];
      [ left; exact Hnone
      | right; left; exists recipient; repeat split; assumption ].
    right. right.
    destruct (resolveSwapPath_pair w ledger (tokenId params) path Hpath)
      as [first [second Hpair]].
    exists ledger, routerId, baseUrl, tokenInfo, recipient, tx.
    repeat (split; [assumption|]).
    split.
    { exists first, second, address. subst tx path. reflexivity. }
    destruct (ensureTokenAssociation_handed w client context recipient (tokenId params))
      as [Hnone | [Hmode Hone]].
    + left. rewrite Hnone. reflexivity.
    + right. split; [exact Hmode|]. rewrite Hone. reflexivity.
Qed.

(** X11.  In any run, [execute] hands to [handleTransaction] nothing, the
    association alone, the swap alone, or the association and then the
    swap: never more than one of each, never a swap before the association,
    and no other transaction.  The association is that of the requested
    token with the resolved recipient; the swap is the contract execution on
    the network's router with gas 400000, the requested amount, the function
    swapExactETHForTokens and the parameters 0, a path of two addresses, the
    recipient's address and the clock's seconds plus 300. *)
Theorem execute_hands_association_then_swap
    (w : World) (client : Client) (context : Context) (params : SwapHbarForTokenParams) :
  exists associations swaps,
    handed (trace (execute w client context params)) = (associations ++ swaps)%list
    /\ (associations = []
        \/ exists recipient,
             world_resolveAccount w (recipientAccountId params) context client
             = Ok recipient
             /\ associations
                = [TokenAssociateTransaction recipient [tokenId params]
                     "Auto-associate for SaucerSwap"])
    /\ (swaps = []
        \/ exists ledger routerId tx,
             ledgerId client = Some ledger
             /\ Map_get LedgerIdToRouterContractID ledger = Some routerId
             /\ is_swap_of w routerId params tx
             /\ swaps = [tx]).
Proof.
  destruct (execute_handed_cases w client context params)
    as [Hnone
       | [(recipient & Hrecipient & _ & Hhanded)
         | (ledger & routerId & baseUrl & tokenInfo & recipient & tx
            & Hledger & Hrouter & _ & _ & _ & Hrecipient & _ & Hswap
            & [Hhanded | [_ Hhanded]])]].
  - exists [], []. rewrite Hnone. repeat split; now left.
  - exists [association_transaction recipient (tokenId params)], [].
    rewrite Hhanded. split; [reflexivity|]. split; [|now left].
    right. exists recipient. split; [exact Hrecipient | reflexivity].
  - exists [], [tx]. rewrite Hhanded. split; [reflexivity|]. split; [now left|].
    right. exists ledger, routerId, tx. repeat split; assumption.
  - exists [association_transaction recipient (tokenId params)], [tx].
    rewrite Hhanded. split; [reflexivity|]. split.
    + right. exists recipient. split; [exact Hrecipient | reflexivity].
    + right. exists ledger, routerId, tx. repeat split; assumption.
Qed.

(** X12.  In the mode RETURN_BYTES [execute] hands at most one transaction
    to [handleTransaction], and that one is the swap: an association is
    never handed over in this mode, whatever the Mirror Node answers. *)
Theorem execute_return_bytes_single_transaction
    (w : World) (client : Client) (context : Context) (params : SwapHbarForTokenParams) :
  mode context = Some RETURN_BYTES ->
  handed (trace (execute w client context params)) = []
  \/ exists ledger routerId tx,
       ledgerId client = Some ledger
       /\ Map_get LedgerIdToRouterContractID ledger = Some routerId
       /\ is_swap_of w routerId params tx
       /\ handed (trace (execute w client context params)) = [tx].
Proof.
  intros Hmode.
  destruct (execute_handed_cases w client context params)
    as [Hnone
       | [(recipient & _ & Hbytes & _)
         | (ledger & routerId & baseUrl & tokenInfo & recipient & tx
            & Hledger & Hrouter & _ & _ & _ & _ & _ & Hswap
            & [Hhanded | [Hbytes _]])]].
  - now left.
  - rewrite Hmode in Hbytes. discriminate Hbytes.
  - right. exists ledger, routerId, tx. repeat split; assumption.
  - rewrite Hmode in Hbytes. discriminate Hbytes.
Qed.

Lemma execute_return_bytes_single_transaction_witness :
  handed (trace (execute world_associated testnet_client return_bytes_context
                   sample_params)) = [sample_swap]
  /\ handed (trace (execute (world_not_associated "SUCCESS") testnet_client
                      return_bytes_context sample_params)) = [].
Proof.
  split.
  - destruct (execute_return_bytes_single_transaction world_associated testnet_client
                return_bytes_context sample_params eq_refl)
      as [Hnone | [ledger [routerId [tx [_ [_ [_ Hone]]]]]]].
    + discriminate Hnone.
    + reflexivity.
  - destruct (execute_return_bytes_single_transaction (world_not_associated "SUCCESS")
                testnet_client return_bytes_context sample_params eq_refl)
      as [Hnone | [ledger [routerId [tx [_ [_ [_ Hone]]]]]]].
    + exact Hnone.
    + discriminate Hone.
Defined.

(** X13.  A contract execution is handed over only after the token lookup
    answered with a descriptor that passes the type test, the recipient was
    resolved, and the association guard returned normally for that
    recipient and the requested token. *)
Theorem execute_swap_only_after_guard
    (w : World) (client : Client) (context : Context) (params : SwapHbarForTokenParams)
    (contractId : string) (gas : Z) (amount : Q) (name : string)
    (parameters : list AbiParam) :
  In (HandleTransaction (ContractExecuteTransaction contractId gas amount name parameters))
     (trace (execute w client context params)) ->
  exists ledger baseUrl tokenInfo recipient,
    ledgerId client = Some ledger
    /\ Map_get LedgerIdToBaseUrl ledger = Some baseUrl
    /\ result (fetchTokenInfoFromMirrorNode w baseUrl (tokenId params)) = Ok tokenInfo
    /\ (truthy (token_type tokenInfo) = false
        \/ token_type tokenInfo = Some (JStr "FUNGIBLE_COMMON"))
    /\ world_resolveAccount w (recipientAccountId params) context client = Ok recipient
    /\ result (ensureTokenAssociation w client context recipient (tokenId params)) = Ok tt.
Proof.
  intros Hin. apply In_handed in Hin.
  destruct (execute_handed_cases w client context params)
    as [Hnone
       | [(recipient & _ & _ & Hhanded)
         | (ledger & routerId & baseUrl & tokenInfo & recipient & tx
            & Hledger & _ & Hbase & Hinfo & Htype & Hrecipient & Hguard & _)]].
  - rewrite Hnone in Hin. destruct Hin.
  - rewrite Hhanded in Hin. destruct Hin as [H | []]. discriminate H.
  - exists ledger, baseUrl, tokenInfo, recipient.
    repeat (split; [assumption|]). split; [|split; assumption].
    unfold declared_not_fungible in Htype.
    destruct (truthy (token_type tokenInfo)); [right | now left].
    simpl in Htype. apply negb_false_iff in Htype.
    now apply strict_eq_string_true.
Qed.

Lemma execute_swap_only_after_guard_witness :
  exists ledger baseUrl tokenInfo recipient,
    ledgerId testnet_client = Some ledger
    /\ Map_get LedgerIdToBaseUrl ledger = Some baseUrl
    /\ result (fetchTokenInfoFromMirrorNode world_associated baseUrl
                 (tokenId sample_params)) = Ok tokenInfo
    /\ (truthy (token_type tokenInfo) = false
        \/ token_type tokenInfo = Some (JStr "FUNGIBLE_COMMON"))
    /\ world_resolveAccount world_associated (recipientAccountId sample_params)
         autonomous_context testnet_client = Ok recipient
    /\ result (ensureTokenAssociation world_associated testnet_client
                 autonomous_context recipient (tokenId sample_params)) = Ok tt.
Proof.
  apply (execute_swap_only_after_guard world_associated testnet_client
           autonomous_context sample_params "0.0.19264" 400000 (5 # 2)
           "swapExactETHForTokens"
           [ Uint256 0;
             AddressArray [ "0000000000000000000000000000000000003ad2";
                            "00000000000000000000000000000000000b2ad5" ];
             Address "00000000000000000000000000000000000003e9";
             Uint256 1700000300 ]).
  vm_compute. tauto.
Defined.

(** X14.  The deadline of a swap that is handed over lies at most 300
    seconds, and more than 299 seconds, after the reading of the clock: in
    milliseconds, [now + 299000 < 1000 * deadline <= now + 300000]. *)
Theorem execute_deadline_window
    (w : World) (client : Client) (context : Context) (params : SwapHbarForTokenParams)
    (contractId : string) (gas : Z) (amount : Q) (name : string)
    (minimum path recipient : AbiParam) (deadline : Z) :
  In (HandleTransaction
        (ContractExecuteTransaction contractId gas amount name
           [minimum; path; recipient; Uint256 deadline]))
     (trace (execute w client context params)) ->
  world_Date_now w + 299000 < 1000 * deadline <= world_Date_now w + 300000.
Proof.
  intros Hin. apply In_handed in Hin.
  assert (Hdeadline : deadline = world_Date_now w / 1000 + 300).
  { destruct (execute_handed_cases w client context params)
      as [Hnone
         | [(account & _ & _ & Hhanded)
           | (ledger & routerId & baseUrl & tokenInfo & account & tx
              & _ & _ & _ & _ & _ & _ & _ & (first & second & address & Htx)
              & [Hhanded | [_ Hhanded]])]];
      rewrite Hhanded in Hin || rewrite Hnone in Hin; simpl in Hin.
    - destruct Hin.
    - destruct Hin as [H | []]. discriminate H.
    - destruct Hin as [H | []]. rewrite Htx in H. now inversion H.
    - destruct Hin as [H | [H | []]]; [discriminate H|].
      rewrite Htx in H. now inversion H. }
  subst deadline.
  pose proof (Z.div_mod (world_Date_now w) 1000 ltac:(lia)) as Hdiv.
  pose proof (Z.mod_pos_bound (world_Date_now w) 1000 ltac:(lia)) as Hmod.
  lia.
Qed.

Lemma execute_deadline_window_witness :
  world_Date_now world_associated + 299000 < 1000 * 1700000300
  <= world_Date_now world_associated + 300000.
Proof.
  apply (execute_deadline_window world_associated testnet_client autonomous_context
           sample_params "0.0.19264" 400000 (5 # 2) "swapExactETHForTokens"
           (Uint256 0)
           (AddressArray [ "0000000000000000000000000000000000003ad2";
                           "00000000000000000000000000000000000b2ad5" ])
           (Address "00000000000000000000000000000000000003e9") 1700000300).
  vm_compute. tauto.
Defined.

(** The [try] block writes nothing with [console.error], and what it
    returns is a bare string or the handler's answer. *)
Lemma execute_try_run_quiet
    (w : World) (client : Client) (context : Context) (params : SwapHbarForTokenParams)
    (t : list Event) (r : outcome ToolResult) :
  execute_try_run w client context params t r ->
  console_errors t = [] /\ (forall m h, r <> Ok (ErrorResult m h)).
Proof.
  intros Hrun.
  destruct Hrun as
    [ Hledger
    | ledger Hledger Hrouter
    | ledger routerId baseUrl e Hledger Hrouter Hbase Hinfo
    | ledger routerId baseUrl tokenInfo Hledger Hrouter Hbase Hinfo Htype
    | ledger routerId baseUrl tokenInfo e Hledger Hrouter Hbase Hinfo Htype Hrecipient
    | ledger routerId baseUrl tokenInfo recipient e Hledger Hrouter Hbase Hinfo Htype
        Hrecipient Hguard
    | ledger routerId baseUrl tokenInfo recipient steps r Hledger Hrouter Hbase Hinfo
        Htype Hrecipient Hguard Hsteps ];
    try (split; [reflexivity | intros m h; discriminate]).
  - split; [|intros m h; discriminate].
    simpl. apply ensureTokenAssociation_console.
  - cbn [console_errors]. rewrite console_errors_app, ensureTokenAssociation_console.
    destruct Hsteps as
      [ e Hpath
      | path e Hpath Haccount
      | path e Hpath Haccount Hpopulate
      | path address e Hpath Haccount Hpopulate Hrejects
      | path address Hpath Haccount Hpopulate tx Hrejects ];
      (split; [reflexivity | intros m h]); try discriminate.
    destruct (world_handleTransaction w tx client context None); discriminate.
Qed.

(** The [try] block writes nothing with [console.error], and what it
    returns is a bare string or the handler's answer. *)
Lemma execute_try_quiet
    (w : World) (client : Client) (context : Context) (params : SwapHbarForTokenParams) :
  console_errors (trace (execute_try w client context params)) = []
  /\ (forall m h,
        result (execute_try w client context params) <> Ok (ErrorResult m h)).
Proof.
  apply (execute_try_run_quiet w client context params). apply execute_try_runs.
Qed.

(** X15.  [execute] answers with the structured error exactly when it has
    written a message with [console.error]: in that case it has written one
    message, which is both the [raw.error] and the [humanMessage] of the
    result; when the result is a bare string or the handler's answer, nothing
    has been written.  No run ends in an exception. *)
Theorem execute_error_is_logged
    (w : World) (client : Client) (context : Context) (params : SwapHbarForTokenParams) :
  match result (execute w client context params) with
  | Ok (ErrorResult raw_error humanMessage) =>
      raw_error = humanMessage
      /\ console_errors (trace (execute w client context params)) = [raw_error]
  | Ok _ => console_errors (trace (execute w client context params)) = []
  | Err _ => False
  end.
Proof.
  destruct (execute_try_quiet w client context params) as [Hquiet Hkind].
  pose proof (execute_cases w client context params) as Hcases.
  set (t := trace (execute_try w client context params)) in *.
  destruct (result (execute_try w client context params)) as [r|e]; rewrite Hcases;
    cbn [result trace fst snd].
  - destruct r as [s | m h | handled]; try exact Hquiet.
    now elim (Hkind m h).
  - split; [reflexivity|].
    rewrite console_errors_app, Hquiet. reflexivity.
Qed.

(** X16.  Without a network on the client [execute] only writes and
    returns its error; on a network outside the tables it does nothing but
    return; on a configured network the first thing it does, before any
    other interaction, is to request [{base}/tokens/{tokenId}] from that
    network's Mirror Node. *)
Theorem execute_starts_with_token_lookup
    (w : World) (client : Client) (context : Context) (params : SwapHbarForTokenParams) :
  match ledgerId client with
  | None =>
      trace (execute w client context params)
      = [ConsoleError "Unable to determine Hedera network from client."]
  | Some ledger =>
      match Map_get LedgerIdToBaseUrl ledger with
      | None => trace (execute w client context params) = []
      | Some baseUrl =>
          exists rest,
            trace (execute w client context params)
            = HttpGet (baseUrl ++ "/tokens/" ++ tokenId params) :: rest
      end
  end.
Proof.
  pose proof (execute_try_runs w client context params) as Hrun.
  pose proof (execute_cases w client context params) as Hcases.
  inversion Hrun as
    [ Hledger Ht Hr
    | ledger Hledger Hrouter Ht Hr
    | ledger routerId baseUrl e Hledger Hrouter Hbase Hinfo Ht Hr
    | ledger routerId baseUrl tokenInfo Hledger Hrouter Hbase Hinfo Htype Ht Hr
    | ledger routerId baseUrl tokenInfo e Hledger Hrouter Hbase Hinfo Htype Hrecipient Ht Hr
    | ledger routerId baseUrl tokenInfo recipient e Hledger Hrouter Hbase Hinfo Htype
        Hrecipient Hguard Ht Hr
    | ledger routerId baseUrl tokenInfo recipient steps r Hledger Hrouter Hbase Hinfo
        Htype Hrecipient Hguard Hsteps Ht Hr ];
    rewrite Hledger; try rewrite Hbase;
    rewrite <- Hr in Hcases; rewrite <- Ht in Hcases.
  - rewrite Hcases. reflexivity.
  - assert (Hbase : Map_get LedgerIdToBaseUrl ledger = None).
    { destruct ledger; try discriminate Hrouter; reflexivity. }
    rewrite Hbase, Hcases. reflexivity.
  - rewrite Hcases. eexists. reflexivity.
  - rewrite Hcases. eexists. reflexivity.
  - rewrite Hcases. eexists. reflexivity.
  - rewrite Hcases. eexists. reflexivity.
  - destruct r; rewrite Hcases; eexists; reflexivity.
Qed.

(* ------------------------------------------------------------------ *)
(** ** Particular runs of the tool                                     *)
(* ------------------------------------------------------------------ *)

Section ToolRuns.

Variable w : World.
Variable client : Client.
Variable context : Context.
Variable params : SwapHbarForTokenParams.

(** X17.  A client without a network identity makes [execute] return the
    structured error "Unable to determine Hedera network from client.",
    written once with [console.error], without any request; the association
    guard called with such a client throws that message without any
    request either. *)
Theorem execute_without_ledger (accountId token : string) :
  ledgerId client = None ->
  execute w client context params
  = ([ConsoleError "Unable to determine Hedera network from client."],
     Ok (ErrorResult "Unable to determine Hedera network from client."
           "Unable to determine Hedera network from client."))
  /\ ensureTokenAssociation w client context accountId token
     = ([], Err (ThrownError "Unable to determine Hedera network from client.")).
Proof.
  intros Hledger. split.
  - unfold execute, execute_try, requireClientLedger. rewrite Hledger. reflexivity.
  - unfold ensureTokenAssociation, requireClientLedger. rewrite Hledger. reflexivity.
Qed.

Variable ledger : LedgerId.
Variables routerId baseUrl : string.
Hypothesis client_ledger : ledgerId client = Some ledger.
Hypothesis ledger_router : Map_get LedgerIdToRouterContractID ledger = Some routerId.
Hypothesis ledger_base : Map_get LedgerIdToBaseUrl ledger = Some baseUrl.

Local Abbreviation token_request := (HttpGet (token_url baseUrl (tokenId params))).

(** A token lookup that throws ends the run. *)
Lemma execute_token_lookup_threw (e : thrown) :
  result (fetchTokenInfoFromMirrorNode w baseUrl (tokenId params)) = Err e ->
  execute w client context params
  = ([token_request; ConsoleError (reported_message e)],
     Ok (ErrorResult (reported_message e) (reported_message e))).
Proof.
  intros Hinfo.
  assert (Hrun : execute_try w client context params = ([token_request], Err e)).
  { unfold execute_try, requireClientLedger. rewrite client_ledger.
    unfold lift at 1. rewrite bind_Ok.
    rewrite (supported_router _ _ ledger_router), (supported_base_url _ _ ledger_base).
    rewrite (M_eta (fetchTokenInfoFromMirrorNode w baseUrl (tokenId params))).
    rewrite fetchTokenInfoFromMirrorNode_trace, Hinfo. reflexivity. }
  unfold execute. rewrite Hrun. destruct e; reflexivity.
Qed.

(** X18.  When the Mirror Node answers the token lookup with a status
    outside 200 to 299, [execute] returns the structured error whose message
    is "Mirror Node token lookup failed (status)." followed by the detail
    taken from the body; the message is written once, and the token lookup
    is the only request of the run. *)
Theorem execute_token_lookup_not_ok (response : HttpResponse) :
  world_fetch w (token_url baseUrl (tokenId params)) = Ok response ->
  http_ok response = false ->
  let message := "Mirror Node token lookup failed (" ++ show_Z (http_status response)
                 ++ ")." ++ errorDetails response in
  execute w client context params
  = ([token_request; ConsoleError message], Ok (ErrorResult message message)).
Proof.
  intros Hfetch Hok message.
  apply (execute_token_lookup_threw (ThrownError message)).
  now apply fetchTokenInfoFromMirrorNode_not_ok.
Qed.

(** X19.  The decimals are tested before the type: when the body of a
    successful token lookup is an object whose [decimals] is missing or
    falsy, [execute] returns the structured error "Mirror Node token info
    missing numeric decimals." whatever the declared type, also for a type
    that is not fungible; nothing but the token lookup has been requested. *)
Theorem execute_missing_decimals
    (response : HttpResponse) (members : list (string * json)) :
  world_fetch w (token_url baseUrl (tokenId params)) = Ok response ->
  http_ok response = true ->
  http_json response = Ok (JObj members) ->
  truthy (member "decimals" members) = false ->
  execute w client context params
  = ([token_request;
      ConsoleError "Mirror Node token info missing numeric decimals."],
     Ok (ErrorResult "Mirror Node token info missing numeric decimals."
           "Mirror Node token info missing numeric decimals.")).
Proof.
  intros Hfetch Hok Hjson Hdecimals.
  apply (execute_token_lookup_threw
           (ThrownError "Mirror Node token info missing numeric decimals.")).
  rewrite (fetchTokenInfoFromMirrorNode_ok w baseUrl (tokenId params) response members
             Hfetch Hok Hjson).
  rewrite Hdecimals. reflexivity.
Qed.

Variable tokenInfo : TokenInfo.
Hypothesis token_lookup :
  result (fetchTokenInfoFromMirrorNode w baseUrl (tokenId params)) = Ok tokenInfo.
Hypothesis type_test : declared_not_fungible tokenInfo = false.

Variable recipient : string.
Hypothesis recipient_resolved :
  world_resolveAccount w (recipientAccountId params) context client = Ok recipient.

(** The run of a token that passes the type test, once the guard returned
    and every later step succeeded. *)
Lemma execute_after_guard
    (guard_trace : list Event) (path : list string) (address : string)
    (handled : HandlerResult) :
  ensureTokenAssociation w client context recipient (tokenId params)
  = (guard_trace, Ok tt) ->
  result (resolveSwapPath w ledger (tokenId params)) = Ok path ->
  world_AccountId_rejects w recipient = None ->
  world_populateAccountEvmAddress w recipient client = Ok address ->
  world_sdk_rejects w
    (swap_transaction routerId (hbarAmount params) path address
       (world_Date_now w / 1000 + DEFAULT_DEADLINE_SECONDS)) = None ->
  world_handleTransaction w
    (swap_transaction routerId (hbarAmount params) path address
       (world_Date_now w / 1000 + DEFAULT_DEADLINE_SECONDS)) client context None
  = Ok handled ->
  execute w client context params
  = ((token_request :: guard_trace
      ++ [ PopulateAccountEvmAddress recipient;
           SdkBuild (swap_transaction routerId (hbarAmount params) path address
                       (world_Date_now w / 1000 + DEFAULT_DEADLINE_SECONDS));
           HandleTransaction
             (swap_transaction routerId (hbarAmount params) path address
                (world_Date_now w / 1000 + DEFAULT_DEADLINE_SECONDS)) ])%list,
     Ok (HandlerOutput handled)).
Proof.
  intros Hguard Hpath Haccount Hpopulate Hrejects Hhandle.
  pose proof (execute_try_after_token_lookup w client context params ledger routerId
                baseUrl client_ledger ledger_router ledger_base tokenInfo token_lookup)
    as Hrun.
  unfold bind at 1 in Hrun.
  change (truthy (token_type tokenInfo)
          && negb (strict_eq_string (token_type tokenInfo) "FUNGIBLE_COMMON"))
    with (declared_not_fungible tokenInfo) in Hrun.
  rewrite type_test in Hrun.
  unfold lift at 1 in Hrun. rewrite recipient_resolved, bind_Ok, Hguard in Hrun.
  rewrite (M_eta (resolveSwapPath w ledger (tokenId params))) in Hrun.
  rewrite resolveSwapPath_trace, Hpath in Hrun.
  unfold populateAccountEvmAddress, build in Hrun. rewrite Haccount in Hrun.
  unfold bind, emit, lift, ret, handle in Hrun.
  rewrite Hpopulate in Hrun. simpl in Hrun.
  rewrite Hrejects in Hrun. simpl in Hrun. rewrite Hhandle in Hrun. simpl in Hrun.
  unfold execute. rewrite Hrun. reflexivity.
Qed.

End ToolRuns.

(** X20.  When the recipient needs the association and the mode allows it,
    a swap runs as two transactions in this order: after the token lookup
    and the two account lookups, the association is configured and handed
    over and answered with SUCCESS; then the recipient's address is asked for
    and the swap is configured and handed over.  [execute] returns the
    handler's answer to the swap. *)
Theorem execute_associates_then_swaps
    (w : World) (client : Client) (context : Context) (params : SwapHbarForTokenParams)
    (ledger : LedgerId) (routerId baseUrl : string) (tokenInfo : TokenInfo)
    (recipient : string) (maxAutoAssociations : Z) (raw : RawTransactionResponse)
    (message : string) (path : list string) (address : string)
    (handled : HandlerResult) :
  ledgerId client = Some ledger ->
  Map_get LedgerIdToRouterContractID ledger = Some routerId ->
  Map_get LedgerIdToBaseUrl ledger = Some baseUrl ->
  result (fetchTokenInfoFromMirrorNode w baseUrl (tokenId params)) = Ok tokenInfo ->
  declared_not_fungible tokenInfo = false ->
  world_resolveAccount w (recipientAccountId params) context client = Ok recipient ->
  result (mirrorNodeAccountHasToken w baseUrl recipient (tokenId params)) = Ok false ->
  result (mirrorNodeAccountMaxAutoAssociations w baseUrl recipient)
  = Ok maxAutoAssociations ->
  maxAutoAssociations <> -1 ->
  mode context <> Some RETURN_BYTES ->
  let association := association_transaction recipient (tokenId params) in
  world_sdk_rejects w association = None ->
  world_handleTransaction w association client context
    (Some (association_message (tokenId params) recipient)) = Ok (Executed raw message) ->
  status raw = "SUCCESS" ->
  result (resolveSwapPath w ledger (tokenId params)) = Ok path ->
  world_AccountId_rejects w recipient = None ->
  world_populateAccountEvmAddress w recipient client = Ok address ->
  let swap :=
    ContractExecuteTransaction routerId 400000 (hbarAmount params)
      "swapExactETHForTokens"
      [ Uint256 0; AddressArray path; Address address;
        Uint256 (world_Date_now w / 1000 + 300) ] in
  world_sdk_rejects w swap = None ->
  world_handleTransaction w swap client context None = Ok handled ->
  execute w client context params
  = ([ HttpGet (token_url baseUrl (tokenId params));
       HttpGet (relationship_url baseUrl recipient (tokenId params));
       HttpGet (account_url baseUrl recipient);
       SdkBuild association; HandleTransaction association;
       PopulateAccountEvmAddress recipient;
       SdkBuild swap; HandleTransaction swap ],
     Ok (HandlerOutput handled))
  /\ handed (trace (execute w client context params)) = [association; swap].
Proof.
  intros Hledger Hrouter Hbase Hinfo Htype Hrecipient Hhas Hmax Hceiling Hmode
    association Hassociation Hassociated Hstatus Hpath Haccount Hpopulate
    swap Hswap Hhandled.
  assert (Hguard :
            ensureTokenAssociation w client context recipient (tokenId params)
            = ((guard_lookups baseUrl recipient (tokenId params)
                ++ [SdkBuild association; HandleTransaction association])%list,
               Ok tt)).
  { rewrite (ensureTokenAssociation_after_lookups w client context recipient
               (tokenId params) ledger baseUrl Hledger Hbase false
               maxAutoAssociations Hhas Hmax).
    assert (Hbytes : is_RETURN_BYTES (mode context) = false).
    { destruct (mode context) as [[|]|]; try reflexivity. now elim Hmode. }
    apply Z.eqb_neq in Hceiling.
    unfold bind at 1. rewrite Hceiling, Hbytes. simpl orb. cbv iota.
    unfold build, handle. fold association. rewrite Hassociation.
    unfold bind, emit, lift, ret, throw. rewrite Hassociated, Hstatus. reflexivity. }
  assert (Hrun :
            execute w client context params
            = ([ HttpGet (token_url baseUrl (tokenId params));
                 HttpGet (relationship_url baseUrl recipient (tokenId params));
                 HttpGet (account_url baseUrl recipient);
                 SdkBuild association; HandleTransaction association;
                 PopulateAccountEvmAddress recipient;
                 SdkBuild swap; HandleTransaction swap ],
               Ok (HandlerOutput handled))).
  { apply (execute_after_guard w client context params ledger routerId baseUrl
             Hledger Hrouter Hbase tokenInfo Hinfo Htype recipient Hrecipient
             _ path address handled Hguard Hpath Haccount Hpopulate Hswap Hhandled). }
  split; [exact Hrun|]. rewrite Hrun. reflexivity.
Qed.

Lemma execute_associates_then_swaps_witness :
  execute (world_not_associated "SUCCESS") testnet_client autonomous_context
    sample_params
  = ([ HttpGet (token_url sample_base "0.0.731861");
       HttpGet (relationship_url sample_base "0.0.1001" "0.0.731861");
       HttpGet (account_url sample_base "0.0.1001");
       SdkBuild sample_association; HandleTransaction sample_association;
       PopulateAccountEvmAddress "0.0.1001";
       SdkBuild sample_swap; HandleTransaction sample_swap ],
     Ok (HandlerOutput (Executed (sample_receipt "SUCCESS") "{}")))
  /\ handed (trace (execute (world_not_associated "SUCCESS") testnet_client
                      autonomous_context sample_params))
     = [sample_association; sample_swap].
Proof.
  apply (execute_associates_then_swaps (world_not_associated "SUCCESS") testnet_client
           autonomous_context sample_params TESTNET "0.0.19264" sample_base
           sample_token_info "0.0.1001" 0 (sample_receipt "SUCCESS")
           "Associated token 0.0.731861 with account 0.0.1001. Status: SUCCESS."
           [ "0000000000000000000000000000000000003ad2";
             "00000000000000000000000000000000000b2ad5" ]
           "00000000000000000000000000000000000003e9"
           (Executed (sample_receipt "SUCCESS") "{}"));
    try reflexivity; [lia | discriminate].
Defined.

Lemma execute_without_ledger_witness :
  execute world_associated no_ledger_client autonomous_context sample_params
  = ([ConsoleError "Unable to determine Hedera network from client."],
     Ok (ErrorResult "Unable to determine Hedera network from client."
           "Unable to determine Hedera network from client."))
  /\ ensureTokenAssociation world_associated no_ledger_client autonomous_context
       "0.0.1001" "0.0.731861"
     = ([], Err (ThrownError "Unable to determine Hedera network from client.")).
Proof.
  apply (execute_without_ledger world_associated no_ledger_client autonomous_context
           sample_params "0.0.1001" "0.0.731861").
  reflexivity.
Defined.

Lemma execute_token_lookup_not_ok_witness :
  execute world_down testnet_client autonomous_context sample_params
  = ([ HttpGet (token_url sample_base "0.0.731861");
       ConsoleError "Mirror Node token lookup failed (404). Not Found" ],
     Ok (ErrorResult "Mirror Node token lookup failed (404). Not Found"
           "Mirror Node token lookup failed (404). Not Found")).
Proof.
  apply (execute_token_lookup_not_ok world_down testnet_client autonomous_context
           sample_params TESTNET "0.0.19264" sample_base eq_refl eq_refl eq_refl
           response_404);
    reflexivity.
Defined.

Lemma execute_missing_decimals_witness :
  execute world_no_decimals testnet_client autonomous_context sample_params
  = ([ HttpGet (token_url sample_base "0.0.731861");
       ConsoleError "Mirror Node token info missing numeric decimals." ],
     Ok (ErrorResult "Mirror Node token info missing numeric decimals."
           "Mirror Node token info missing numeric decimals.")).
Proof.
  apply (execute_missing_decimals world_no_decimals testnet_client autonomous_context
           sample_params TESTNET "0.0.19264" sample_base eq_refl eq_refl eq_refl
           (response_200 (JObj [("type", JStr "NON_FUNGIBLE_UNIQUE")]))
           [("type", JStr "NON_FUNGIBLE_UNIQUE")]);
    reflexivity.
Defined.

(* ------------------------------------------------------------------ *)
(** ** The search through the relationship list                        *)
(* ------------------------------------------------------------------ *)

(** X21.  The search stops at the first entry that has the token: when the
    entries before it are not [null] and do not have the token, the answer is
    true whatever follows, also when entries after it are [null]. *)
Theorem some_token_id_first_match
    (before after : list json) (entry : json) (tokenId : string) :
  (forall other, In other before -> other <> JNull /\ ~ entry_has_token tokenId other) ->
  entry_has_token tokenId entry ->
  some_token_id (before ++ entry :: after) tokenId = Ok true.
Proof.
  intros Hbefore Hentry.
  induction before as [|other before IH]; simpl.
  - rewrite Hentry. simpl. rewrite String.eqb_refl. reflexivity.
  - destruct (Hbefore other (or_introl eq_refl)) as [Hnonnull Hnot].
    destruct (get_prop other "token_id") as [v|e] eqn:Hprop.
    + destruct (strict_eq_string v tokenId) eqn:Hv.
      * apply strict_eq_string_true in Hv. subst v. now elim Hnot.
      * apply IH. intros x Hx. apply Hbefore. now right.
    + destruct other; simpl in Hprop; try discriminate Hprop. now elim Hnonnull.
Qed.

Lemma some_token_id_first_match_witness :
  some_token_id
    [ JObj [("token_id", JStr "0.0.5")];
      JObj [("token_id", JStr "0.0.731861")];
      JNull ]
    "0.0.731861" = Ok true.
Proof.
  apply (some_token_id_first_match [JObj [("token_id", JStr "0.0.5")]] [JNull]
           (JObj [("token_id", JStr "0.0.731861")]) "0.0.731861").
  - simpl. intros other [<- | []]. split; [discriminate|].
    unfold entry_has_token. simpl. discriminate.
  - reflexivity.
Defined.
